(** * Databricks planning app: change tracking and merge-based save

    A shallow embedding of [src/databricks_utils.py] (with the callback
    wiring declared by its [@app.callback] decorators and the component
    defaults of [src/layout.py]), and the properties of the natural-language
    specification stated and settled against it.

    Conventions.
    - A Python [dict] with string keys is a [gmap string _]; none of the
      code below depends on the order of a dict's items.
    - A Python [str] is a [string]; the text handled by the functions that
      inspect characters (splitting on a dot, [int], [strptime]) is ASCII.
    - A raised exception is a value of [exn]; fallible code returns [res].
    - The Spark session, the Delta table API and the key table are an
      external service: they are a record of oracles ([Backend]), and every
      merge that reaches [.execute()] is appended to a log. *)

From Stdlib Require Import ZArith String Ascii List Lia.
From stdpp Require Import gmap strings list fin_maps pretty.

Local Open Scope Z_scope.

(** ** Python values, exceptions and results *)

Module Py.

(** [datetime.date] *)
Record date := mkdate { year : Z; month : Z; day : Z }.

(** The values a grid cell or an event field can hold once the callback
    arguments have been decoded from JSON, and after date conversion. *)
Inductive value :=
| VNone
| VBool (b : bool)
| VInt (n : Z)
| VStr (s : string)
| VDate (d : date).

(** The exception classes that the code raises or that reach it. *)
Inductive exn :=
| ValueError (msg : string)
| TypeError (msg : string)
| IndexError (msg : string)
| SparkError (msg : string)     (* anything raised by the backend *)
| Exception (msg : string).     (* [raise Exception(...)] of the source *)

(** [str(e)] *)
Definition exn_str (e : exn) : string :=
  match e with
  | ValueError m | TypeError m | IndexError m | SparkError m | Exception m => m
  end.

Inductive res (A : Type) :=
| Ok (a : A)
| Raise (e : exn).
Arguments Ok {A} a.
Arguments Raise {A} e.

(** Sequencing: an exception raised by [m] skips [k]. *)
Definition bind {A B} (m : res A) (k : A → res B) : res B :=
  match m with
  | Ok a => k a
  | Raise e => Raise e
  end.

(** A list comprehension whose element expression can raise: elements are
    evaluated left to right and the first exception aborts. *)
Fixpoint comprehension {A B} (f : A → res B) (l : list A) : res (list B) :=
  match l with
  | [] => Ok []
  | x :: l' =>
      match f x with
      | Ok y =>
          match comprehension f l' with
          | Ok ys => Ok (y :: ys)
          | Raise e => Raise e
          end
      | Raise e => Raise e
      end
  end.

(** The name of the value's type as the interpreter's error texts print
    it. *)
Definition type_name (v : value) : string :=
  match v with
  | VNone => "NoneType"
  | VBool _ => "bool"
  | VInt _ => "int"
  | VStr _ => "str"
  | VDate _ => "datetime.date"
  end.

(** What the error of a mistyped argument calls the value it was given:
    [None] by that word, any other value by the name of its type. *)
Definition arg_name (v : value) : string :=
  match v with
  | VNone => "None"
  | _ => type_name v
  end.

(** [a == b]; [bool] is a subclass of [int], so [True == 1]. *)
Definition eqb (a b : value) : bool :=
  match a, b with
  | VNone, VNone => true
  | VBool x, VBool y => Bool.eqb x y
  | VBool x, VInt n | VInt n, VBool x => Z.eqb (if x then 1 else 0) n
  | VInt n, VInt m => Z.eqb n m
  | VStr s, VStr t => bool_decide (s = t)
  | VDate d, VDate e =>
      Z.eqb (year d) (year e) && Z.eqb (month d) (month e) && Z.eqb (day d) (day e)
  | _, _ => false
  end.

(** [x in l] for a list [l] *)
Definition contains (x : value) (l : list value) : bool := existsb (eqb x) l.

Definition index_error : exn := IndexError "list index out of range".

(** [l[i]] for a list: a negative [i] counts from the end. *)
Definition getitem {A} (l : list A) (i : Z) : res A :=
  let n := Z.of_nat (length l) in
  let j := if i <? 0 then i + n else i in
  if (j <? 0) || (n <=? j) then Raise index_error
  else match l !! Z.to_nat j with
       | Some x => Ok x
       | None => Raise index_error
       end.

(** *** Strings *)

(** [s.split(sep)] for a one-character separator *)
Fixpoint split (sep : ascii) (s : string) : list string :=
  match s with
  | EmptyString => [EmptyString]
  | String c s' =>
      if bool_decide (c = sep) then EmptyString :: split sep s'
      else match split sep s' with
           | h :: t => String c h :: t
           | [] => [String c EmptyString]
           end
  end.

(** [s.count(c)] for a one-character [c] *)
Fixpoint count_char (c : ascii) (s : string) : nat :=
  match s with
  | EmptyString => 0
  | String a s' => (if bool_decide (a = c) then 1 else 0) + count_char c s'
  end.

(** [sep.join(l)] *)
Fixpoint join (sep : string) (l : list string) : string :=
  match l with
  | [] => EmptyString
  | [x] => x
  | x :: l' => x +:+ sep +:+ join sep l'
  end.

(** Value of an ASCII decimal digit. *)
Definition digit_of (c : ascii) : option Z :=
  let n := Z.of_N (N_of_ascii c) in
  if (48 <=? n) && (n <=? 57) then Some (n - 48) else None.

(** The characters [int] drops around the literal of an ASCII text: tab,
    newline, vertical tab, form feed, carriage return and space. *)
Definition is_space (c : ascii) : bool :=
  let n := Z.of_N (N_of_ascii c) in
  ((9 <=? n) && (n <=? 13)) || (n =? 32).

(** A text of ASCII characters only. The functions of this file that look
    into a text ([int], [strptime]) are those of Python on such texts; on
    other texts Python also knows the decimal digits and the white space of
    other scripts. *)
Definition is_ascii (s : string) : Prop :=
  Forall (λ c, (nat_of_ascii c < 128)%nat) (list_ascii_of_string s).

Fixpoint lstrip (s : string) : string :=
  match s with
  | String c s' => if is_space c then lstrip s' else s
  | EmptyString => s
  end.

Definition strip (s : string) : string :=
  String.rev (lstrip (String.rev (lstrip s))).

(** Digits of an integer literal; a single underscore may separate two
    digits. [prev] tells whether the previous character was a digit. *)
Fixpoint int_digits (acc : Z) (prev : bool) (s : string) : option Z :=
  match s with
  | EmptyString => if prev then Some acc else None
  | String c s' =>
      match digit_of c with
      | Some d => int_digits (10 * acc + d) true s'
      | None =>
          if bool_decide (c = "_"%char) && prev then int_digits acc false s'
          else None
      end
  end.

(** In a message, [repr(s)]: the quotes chosen as Python does; backslash
    and the quote escaped, tab, newline and carriage return by their letter,
    any other control character by its code. *)
Fixpoint has_char (c : ascii) (s : string) : bool :=
  match s with
  | EmptyString => false
  | String d s' => bool_decide (c = d) || has_char c s'
  end.

Definition dquote : ascii := ascii_of_nat 34.
Definition backslash : ascii := ascii_of_nat 92.

Definition hex_digit (n : nat) : ascii :=
  if (n <? 10)%nat then ascii_of_nat (48 + n) else ascii_of_nat (87 + n).

Fixpoint repr_body (q : ascii) (s : string) : string :=
  match s with
  | EmptyString => EmptyString
  | String c s' =>
      let code := nat_of_ascii c in
      (if bool_decide (c = q) || bool_decide (c = backslash)
       then String backslash (String c EmptyString)
       else if bool_decide (c = ascii_of_nat 9) then String backslash "t"
       else if bool_decide (c = ascii_of_nat 10) then String backslash "n"
       else if bool_decide (c = ascii_of_nat 13) then String backslash "r"
       else if (code <? 32)%nat || (code =? 127)%nat
       then String backslash
              (String "x" (String (hex_digit (code / 16))
                             (String (hex_digit (code mod 16)) EmptyString)))
       else String c EmptyString) +:+ repr_body q s'
  end.

Definition repr (s : string) : string :=
  let q := if has_char "'"%char s && negb (has_char dquote s)
           then dquote else "'"%char in
  String q (repr_body q s +:+ String q EmptyString).

(** [int(s)] for a string: surrounding whitespace is dropped, one sign is
    allowed. *)
Definition int_of_str (s : string) : res Z :=
  let bad := Raise (ValueError
               ("invalid literal for int() with base 10: " +:+ repr s)) in
  let t := strip s in
  match t with
  | String c t' =>
      if bool_decide (c = "-"%char) then
        match int_digits 0 false t' with Some n => Ok (- n) | None => bad end
      else if bool_decide (c = "+"%char) then
        match int_digits 0 false t' with Some n => Ok n | None => bad end
      else
        match int_digits 0 false t with Some n => Ok n | None => bad end
  | EmptyString => bad
  end.

(** [int(v)] *)
Definition int (v : value) : res Z :=
  match v with
  | VInt n => Ok n
  | VBool b => Ok (if b then 1 else 0)
  | VStr s => int_of_str s
  | VNone | VDate _ =>
      Raise (TypeError
        ("int() argument must be a string, a bytes-like object or a real number, not '"
         +:+ type_name v +:+ "'"))
  end.

End Py.

Export Py.

Notation "'let*' x ':=' m 'in' k" := (Py.bind m (λ x, k))
  (at level 10, x pattern, m at level 100, k at level 200).


(** ** [datetime.strptime(_, "%Y-%m-%d").date()]

    CPython turns the format into a regular expression with one named group
    per directive, matches it at the start of the text with a backtracking
    matcher, rejects text left over after the match, converts the groups
    with [int] and builds the date, which checks the calendar. This is the
    conversion of ASCII text ([is_ascii]): the digit class below holds the
    ten ASCII digits, while on other text Python's \d and [int] also take
    the decimal digits of other scripts. *)

Module Strptime.

Inductive regex :=
| Lit (c : ascii)
| Range (lo hi : ascii)
| Digit                       (* \d, on ASCII text *)
| Seq (r1 r2 : regex)
| Alt (r1 r2 : regex).

Definition in_range (lo hi c : ascii) : bool :=
  (N_of_ascii lo <=? N_of_ascii c)%N && (N_of_ascii c <=? N_of_ascii hi)%N.

(** Every way [r] matches a prefix of [s], as (matched text, rest), in the
    order in which a backtracking matcher tries them. *)
Fixpoint matches (r : regex) (s : string) : list (string * string) :=
  match r with
  | Lit c =>
      match s with
      | String a s' => if bool_decide (a = c) then [(String a EmptyString, s')] else []
      | EmptyString => []
      end
  | Range lo hi =>
      match s with
      | String a s' => if in_range lo hi a then [(String a EmptyString, s')] else []
      | EmptyString => []
      end
  | Digit =>
      match s with
      | String a s' => if is_Some_dec (digit_of a) then [(String a EmptyString, s')] else []
      | EmptyString => []
      end
  | Seq r1 r2 =>
      '(t1, s1) ← matches r1 s;
      '(t2, s2) ← matches r2 s1;
      [(t1 +:+ t2, s2)]
  | Alt r1 r2 => matches r1 s ++ matches r2 s
  end.

(** %Y: \d\d\d\d *)
Definition re_Y : regex := Seq Digit (Seq Digit (Seq Digit Digit)).
(** %m: 1[0-2]|0[1-9]|[1-9] *)
Definition re_m : regex :=
  Alt (Seq (Lit "1") (Range "0" "2"))
 (Alt (Seq (Lit "0") (Range "1" "9"))
      (Range "1" "9")).
(** %d: 3[0-1]|[1-2]\d|0[1-9]|[1-9]| [1-9] *)
Definition re_d : regex :=
  Alt (Seq (Lit "3") (Range "0" "1"))
 (Alt (Seq (Range "1" "2") Digit)
 (Alt (Seq (Lit "0") (Range "1" "9"))
 (Alt (Range "1" "9")
      (Seq (Lit " ") (Range "1" "9"))))).

(** The format after the year group, -(?P<m>..)-(?P<d>..): every way it
    matches, as the two groups and the text after the match. *)
Definition month_day (s1 : string) : list (string * string * string) :=
  '(_, s2) ← matches (Lit "-") s1;
  '(m, s3) ← matches re_m s2;
  '(_, s4) ← matches (Lit "-") s3;
  '(d, s5) ← matches re_d s4;
  [(m, d, s5)].

(** The first match of (?P<Y>..)-(?P<m>..)-(?P<d>..): the three groups and
    the text after the match. *)
Definition format_match (s : string) : option (string * string * string * string) :=
  head ('(y, s1) ← matches re_Y s;
        '(m, d, s5) ← month_day s1;
        [(y, m, d, s5)]).

Definition is_leap (y : Z) : bool :=
  (y mod 4 =? 0) && (negb (y mod 100 =? 0) || (y mod 400 =? 0)).

Definition days_in_month (y m : Z) : Z :=
  if m =? 2 then (if is_leap y then 29 else 28)
  else if (m =? 4) || (m =? 6) || (m =? 9) || (m =? 11) then 30
  else 31.

(** [datetime.date(y, m, d)] *)
Definition make_date (y m d : Z) : res date :=
  if (y <? 1) || (9999 <? y) then
    Raise (ValueError ("year " +:+ pretty y +:+ " is out of range"))
  else if (m <? 1) || (12 <? m) then
    Raise (ValueError "month must be in 1..12")
  else if (d <? 1) || (days_in_month y m <? d) then
    Raise (ValueError "day is out of range for month")
  else Ok (mkdate y m d).

Definition strptime (data : value) : res date :=
  match data with
  | VStr s =>
      match format_match s with
      | None =>
          Raise (ValueError ("time data " +:+ repr s +:+
                             " does not match format " +:+ repr "%Y-%m-%d"))
      | Some (y, m, d, rest) =>
          if bool_decide (rest = EmptyString) then
            Py.bind (int_of_str y) (λ y,
            Py.bind (int_of_str m) (λ m,
            Py.bind (int_of_str d) (λ d,
            make_date y m d)))
          else Raise (ValueError ("unconverted data remains: " +:+ rest))
      end
  | _ => Raise (TypeError ("strptime() argument 1 must be str, not " +:+ arg_name data))
  end.

End Strptime.

Export Strptime.

(** ** The Spark session and the Delta table API (external) *)

Module Spark.

(** A row as a Python dict: [Row.asDict()], a grid row, an event entry. *)
Abbreviation Row := (gmap string value).

(** [pyspark.sql.types]: the classes that [get_column_types] names, and
    any other class by its name. *)
Inductive DataType :=
| IntegerType | LongType | FloatType | DoubleType | DecimalType
| StringType | BooleanType | DateType | TimestampType
| OtherType (class_name : string).

(** [type(t).__name__] *)
Definition class_name_of (t : DataType) : string :=
  match t with
  | IntegerType => "IntegerType"
  | LongType => "LongType"
  | FloatType => "FloatType"
  | DoubleType => "DoubleType"
  | DecimalType => "DecimalType"
  | StringType => "StringType"
  | BooleanType => "BooleanType"
  | DateType => "DateType"
  | TimestampType => "TimestampType"
  | OtherType n => n
  end.

Record StructField := { name : string; dataType : DataType; nullable : bool }.
Abbreviation StructType := (list StructField).

(** What [spark.table(t)] gives to the code: [.schema] and [.collect()]
    with each row [asDict()]. *)
Record Table := { schema : StructType; collect : list Row }.

(** [spark.createDataFrame(data, schema=...)] *)
Record DataFrame := { df_schema : StructType; df_data : list Row }.

(** [df.columns] *)
Definition columns (df : DataFrame) : list string := name <$> df_schema df.

(** A row of the key table, which holds one row per key column of a
    table. *)
Record KeyRow := {
  table_catalog : string;
  table_schema : string;
  table_name : string;
  column_name : string }.

(** [x.alias(a)] *)
Record aliased (A : Type) := alias { alias_of : A; alias_name : string }.
Arguments alias {A} _ _.
Arguments alias_of {A} _.
Arguments alias_name {A} _.

(** [DeltaTable.forName(spark, t)] *)
Record DeltaTable := { delta_name : string }.

Inductive MergeClause :=
| WhenMatchedUpdate (set : gmap string string)
| WhenNotMatchedInsertAll.

(** The merge builder: [target.merge(source, condition)] followed by its
    clauses in the order they were added. *)
Record MergeBuilder := {
  merge_target : aliased DeltaTable;
  merge_source : aliased DataFrame;
  merge_on : string;
  merge_clauses : list MergeClause }.

Definition merge (target : aliased DeltaTable) (source : aliased DataFrame)
    (condition : string) : MergeBuilder :=
  {| merge_target := target; merge_source := source;
     merge_on := condition; merge_clauses := [] |}.

Definition whenMatchedUpdate (set : gmap string string) (b : MergeBuilder) : MergeBuilder :=
  {| merge_target := merge_target b; merge_source := merge_source b;
     merge_on := merge_on b;
     merge_clauses := merge_clauses b ++ [WhenMatchedUpdate set] |}.

Definition whenNotMatchedInsertAll (b : MergeBuilder) : MergeBuilder :=
  {| merge_target := merge_target b; merge_source := merge_source b;
     merge_on := merge_on b;
     merge_clauses := merge_clauses b ++ [WhenNotMatchedInsertAll] |}.

(** The service behind the session. Each oracle answers or raises. *)
Record Backend := {
  (** [spark.table(t)] read as data: schema and rows *)
  table : string → res Table;
  (** [spark.table(t)] read as the key table *)
  key_rows : string → res (list KeyRow);
  (** the check of the rows against the schema in [createDataFrame] *)
  verify_rows : list Row → StructType → res unit;
  (** [DeltaTable.forName] *)
  forName : string → res DeltaTable;
  (** [.execute()] of a merge builder *)
  execute : MergeBuilder → res unit }.

Definition createDataFrame (B : Backend) (data : list Row) (sch : StructType)
    : res DataFrame :=
  Py.bind (verify_rows B data sch) (λ _,
  Ok {| df_schema := sch; df_data := data |}).

End Spark.

Export Spark.

(** ** [databricks_utils.py] *)

Module DatabricksUtils.

(** [{k: v for ...}]: items are inserted in order, a later item replaces an
    earlier one with the same key. *)
Definition dict_of {V} (items : list (string * V)) : gmap string V :=
  foldl (λ m kv, <[kv.1 := kv.2]> m) ∅ items.

(** [load_data] *)
Definition load_data (B : Backend) (table_name : string) : res (list Row * StructType) :=
  match table B table_name with
  | Ok df => Ok (collect df, schema df)
  | Raise e =>
      Raise (Exception ("Failed to load data from table '" +:+ table_name +:+
                        "': " +:+ exn_str e))
  end.

Definition key_table : string := "advancinglake.default.databricks_plan_config_table".

(** [catalog, schema, table = table_name.split(".")] *)
Definition unpack3 (parts : list string) : res (string * string * string) :=
  match parts with
  | [catalog; schema; table] => Ok (catalog, schema, table)
  | _ =>
      if (length parts <? 3)%nat then
        Raise (ValueError ("not enough values to unpack (expected 3, got " +:+
                           pretty (length parts) +:+ ")"))
      else Raise (ValueError "too many values to unpack (expected 3)")
  end.

(** [get_primary_keys] *)
Definition get_primary_keys (B : Backend) (table_name : string) : res (list string) :=
  let* (catalog, schema, table) := unpack3 (split "." table_name) in
  let* rows := key_rows B key_table in
  let df_keys :=
    column_name <$>
      filter (λ r, Spark.table_name r = table)
        (filter (λ r, table_schema r = schema)
           (filter (λ r, table_catalog r = catalog) rows)) in
  Ok df_keys.

(** The builder chain of [save_to_databricks], up to [.execute()]. *)
Definition merge_builder (target_df : DeltaTable) (changed_data : DataFrame)
    (merge_condition : string) (columns_to_update : list string) : MergeBuilder :=
  whenNotMatchedInsertAll
    (whenMatchedUpdate
       (dict_of ((λ col, (col, "source." +:+ col)) <$> columns_to_update))
       (merge (alias target_df "target") (alias changed_data "source") merge_condition)).

(** The handler of [save_to_databricks]: [except Exception as e: raise
    Exception(...)]. *)
Definition save_failure (table_name : string) (e : exn) : exn :=
  Exception ("Failed to save data to Databricks table '" +:+ table_name +:+
             "': " +:+ exn_str e).

(** The exception raised when no key column is known. *)
Definition no_primary_key (table_name : string) : exn :=
  ValueError ("❌ Keine Primärschlüssel gefunden für " +:+ table_name +:+ ".").

(** [save_to_databricks]: the outcome ([None] or the exception raised) and
    the merges that reached [.execute()]. *)
Definition save_to_databricks (B : Backend) (changed_rows_id : list Z)
    (table_name : string) (row_data : list Row) : res unit * list MergeBuilder :=
  let failed (e : exn) : res unit := Raise (save_failure table_name e) in
  let prepared : res MergeBuilder :=
    let* unique_keys := get_primary_keys B table_name in
    if bool_decide (unique_keys = []) then
      Raise (no_primary_key table_name)
    else
      let* row_data := comprehension (getitem row_data) changed_rows_id in
      let* tbl := table B table_name in
      let* changed_data := createDataFrame B row_data (schema tbl) in
      let merge_condition :=
        join " AND " ((λ key, "target." +:+ key +:+ " = source." +:+ key) <$> unique_keys) in
      let* target_df := forName B table_name in
      let columns_to_update := filter (λ col, col ∉ unique_keys) (columns changed_data) in
      Ok (merge_builder target_df changed_data merge_condition columns_to_update) in
  match prepared with
  | Ok m =>
      (match execute B m with
       | Ok _ => Ok ()
       | Raise e => failed e
       end, [m])
  | Raise e => (failed e, [])
  end.

(** A dict with the keys "column" and "type". *)
Record ColumnType := { column : string; type : string }.

Definition type_mapping : gmap string string :=
  dict_of [("IntegerType", "numericColumn"); ("LongType", "numericColumn");
           ("FloatType", "numericColumn"); ("DoubleType", "numericColumn");
           ("DecimalType", "numericColumn"); ("StringType", "textColumn");
           ("BooleanType", "booleanColumn"); ("DateType", "dateColumn");
           ("TimestampType", "dateColumn")].

(** [get_column_types] *)
Definition get_column_types (table_schema : StructType) : list ColumnType :=
  (λ field, {| column := name field;
               type := default "textColumn"
                         (type_mapping !! class_name_of (dataType field)) |})
  <$> table_schema.

(** A column definition of the grid. *)
Record ColumnDef := {
  headerName : string;
  field : string;
  editable : bool;
  col_type : string;                 (* "type" *)
  col_filter : bool;                 (* "filter" *)
  cellStyle : gmap string string }.

(** [generate_column_defs] *)
Definition generate_column_defs (B : Backend) (data : list Row)
    (table_schema : StructType) (table_name : string) : res (list ColumnDef) :=
  let column_types := get_column_types table_schema in
  let* keys := get_primary_keys B table_name in
  let unique_keys := if bool_decide (keys = []) then [] else keys in
  Ok ((λ col,
        {| headerName := column col;
           field := column col;
           editable := negb (contains (VBool true) (VStr <$> unique_keys));
           col_type := type col;
           col_filter := true;
           cellStyle :=
             if bool_decide (column col ∈ unique_keys)
             then dict_of [("backgroundColor", "rgba(241, 137, 0, 0.2)")]
             else ∅ |}) <$> column_types).

(** [load_data_callback]: row data, column definitions, status text. *)
Definition load_data_callback (B : Backend) (n_clicks n_submit : Z) (table_name : string)
    : list Row * list ColumnDef * string :=
  if ((0 <? n_clicks) || (0 <? n_submit)) && negb (bool_decide (table_name = EmptyString)) then
    match load_data B table_name with
    | Ok (data, table_schema) =>
        if bool_decide (data = []) then
          ([], [], "no Table name provided or button clicked")
        else
          match generate_column_defs B data table_schema table_name with
          | Ok columnDefs => (data, columnDefs, "Data successfully loaded")
          | Raise e => ([], [], "Error loading data: " +:+ exn_str e)
          end
    | Raise e => ([], [], "Error loading data: " +:+ exn_str e)
    end
  else ([], [], "no table was selected").

(** [track_changes]: both arguments can be [None]. *)
Definition track_changes (changed_cells : option (list Row))
    (changed_rows_id : option (list Z)) : res (list Z) :=
  let changed_rows_id :=
    match changed_rows_id with
    | None | Some [] => []
    | Some l => l
    end in
  match changed_cells with
  | None | Some [] => Ok changed_rows_id
  | Some cells =>
      let* new := comprehension (λ entry, int (default VNone (entry !! "rowId"))) cells in
      Ok (changed_rows_id ++ new)
  end.

(** The body of the loop of [save_data] for one row: the row afterwards, or
    the exception that leaves it as it was. *)
Definition convert_row (row : Row) : res Row :=
  match row !! "DateDATE" with
  | Some date_str =>
      match strptime date_str with
      | Ok date_obj => Ok (<["DateDATE" := VDate date_obj]> row)
      | Raise (ValueError m) =>
          Raise (ValueError ("Error converting DateDATE to date: " +:+ m))
      | Raise e => Raise e
      end
  | None => Ok row
  end.

(** [for row in row_data: ...]: the rows are updated in place, so the list
    as the loop leaves it is returned next to the outcome. The rows of the
    list are distinct objects: they are decoded from the callback's
    arguments. *)
Fixpoint convert_dates (row_data : list Row) : res unit * list Row :=
  match row_data with
  | [] => (Ok (), [])
  | row :: rest =>
      match convert_row row with
      | Ok row' => let '(r, rest') := convert_dates rest in (r, row' :: rest')
      | Raise e => (Raise e, row :: rest)
      end
  end.

(** [save_data]: the status text, [row_data] as the call leaves it, and the
    merges that reached [.execute()]. *)
Definition save_data (B : Backend) (n_clicks : Z) (changed_rows_id : list Z)
    (table_name : string) (row_data : list Row) : string * list Row * list MergeBuilder :=
  if 0 <? n_clicks then
    match convert_dates row_data with
    | (Ok _, row_data') =>
        match save_to_databricks B changed_rows_id table_name row_data' with
        | (Ok _, log) => ("Data was successfully saved!", row_data', log)
        | (Raise e, log) => ("Error with saving data: " +:+ exn_str e, row_data', log)
        end
    | (Raise e, row_data') => ("Error with saving data: " +:+ exn_str e, row_data', [])
    end
  else ("No Changes to be saved.", row_data, []).

End DatabricksUtils.

Export DatabricksUtils.

(** ** The page: [layout.py] and the [@app.callback] wiring

    A callback receives the current values of its [Input] and [State]
    properties and its return value replaces its [Output] properties; no
    other property changes. A callback that raises leaves its outputs as
    they were. *)

Module App.

(** The component properties the callbacks read or write. *)
Record Session := {
  table_name_input : string;       (* "table-name-input".value *)
  n_submit : Z;                    (* "table-name-input".n_submit *)
  load_clicks : Z;                 (* "load-data-button".n_clicks *)
  save_clicks : Z;                 (* "Saving-button".n_clicks *)
  rowData : list Row;              (* "table-grid".rowData *)
  columnDefs : list ColumnDef;     (* "table-grid".columnDefs *)
  changed_rows_store : list Z;     (* "changed-rows-store".data *)
  loading_output_1 : string;       (* "loading-output-1".children *)
  loading_output_2 : string }.     (* "loading-output-2".children *)

(** The properties as [app.layout] declares them. *)
Definition layout : Session :=
  {| table_name_input := EmptyString; n_submit := 0;
     load_clicks := 0; save_clicks := 0;
     rowData := []; columnDefs := []; changed_rows_store := [];
     loading_output_1 := EmptyString; loading_output_2 := EmptyString |}.

Inductive event :=
| Type_table_name (text : string)
| Click_load
| Press_enter
| Edit_cells (changed_cells : list Row) (rows_after : list Row)
| Click_save.

Fixpoint zeros (n : nat) : string :=
  match n with
  | O => EmptyString
  | S n' => String "0" (zeros n')
  end.

Definition zfill (width : nat) (s : string) : string :=
  zeros (width - String.length s) +:+ s.

(** [d.isoformat()] *)
Definition isoformat (d : date) : string :=
  zfill 4 (pretty (year d)) +:+ "-" +:+ zfill 2 (pretty (month d)) +:+ "-" +:+
  zfill 2 (pretty (day d)).

(** A value as the grid holds it after the response was encoded as JSON: a
    date arrives as its ISO text. *)
Definition to_json (v : value) : value :=
  match v with
  | VDate d => VStr (isoformat d)
  | _ => v
  end.

(** The rows of a response as the grid receives them. *)
Definition to_json_rows (data : list Row) : list Row :=
  (λ r : Row, to_json <$> r) <$> data.

Definition run_load (B : Backend) (s : Session) : Session :=
  let '(data, defs, status) :=
    load_data_callback B (load_clicks s) (n_submit s) (table_name_input s) in
  {| table_name_input := table_name_input s; n_submit := n_submit s;
     load_clicks := load_clicks s; save_clicks := save_clicks s;
     rowData := to_json_rows data; columnDefs := defs;
     changed_rows_store := changed_rows_store s;
     loading_output_1 := status; loading_output_2 := loading_output_2 s |}.

(** One user action and the callback it fires: the page afterwards and the
    merges executed meanwhile. *)
Definition step (B : Backend) (ev : event) (s : Session) : Session * list MergeBuilder :=
  match ev with
  | Type_table_name text =>
      ({| table_name_input := text; n_submit := n_submit s;
          load_clicks := load_clicks s; save_clicks := save_clicks s;
          rowData := rowData s; columnDefs := columnDefs s;
          changed_rows_store := changed_rows_store s;
          loading_output_1 := loading_output_1 s;
          loading_output_2 := loading_output_2 s |}, [])
  | Click_load =>
      (run_load B
         {| table_name_input := table_name_input s; n_submit := n_submit s;
            load_clicks := load_clicks s + 1; save_clicks := save_clicks s;
            rowData := rowData s; columnDefs := columnDefs s;
            changed_rows_store := changed_rows_store s;
            loading_output_1 := loading_output_1 s;
            loading_output_2 := loading_output_2 s |}, [])
  | Press_enter =>
      (run_load B
         {| table_name_input := table_name_input s; n_submit := n_submit s + 1;
            load_clicks := load_clicks s; save_clicks := save_clicks s;
            rowData := rowData s; columnDefs := columnDefs s;
            changed_rows_store := changed_rows_store s;
            loading_output_1 := loading_output_1 s;
            loading_output_2 := loading_output_2 s |}, [])
  | Edit_cells changed_cells rows_after =>
      ({| table_name_input := table_name_input s; n_submit := n_submit s;
          load_clicks := load_clicks s; save_clicks := save_clicks s;
          rowData := rows_after; columnDefs := columnDefs s;
          changed_rows_store :=
            match track_changes (Some changed_cells) (Some (changed_rows_store s)) with
            | Ok ids => ids
            | Raise _ => changed_rows_store s
            end;
          loading_output_1 := loading_output_1 s;
          loading_output_2 := loading_output_2 s |}, [])
  | Click_save =>
      let n := save_clicks s + 1 in
      let '(status, _, log) :=
        save_data B n (changed_rows_store s) (table_name_input s) (rowData s) in
      ({| table_name_input := table_name_input s; n_submit := n_submit s;
          load_clicks := load_clicks s; save_clicks := n;
          rowData := rowData s; columnDefs := columnDefs s;
          changed_rows_store := changed_rows_store s;
          loading_output_1 := loading_output_1 s;
          loading_output_2 := status |}, log)
  end.

(** A sequence of actions, each against the service as it is at that
    moment. *)
Fixpoint run (trace : list (Backend * event)) (s : Session) : Session * list MergeBuilder :=
  match trace with
  | [] => (s, [])
  | (B, ev) :: rest =>
      let '(s1, log1) := step B ev s in
      let '(s2, log2) := run rest s1 in
      (s2, log1 ++ log2)
  end.

End App.

Export App.

(** ** A small table used in the examples *)

Module Demo.

Definition id_name_schema : StructType :=
  [ {| name := "id"; dataType := IntegerType; nullable := false |};
    {| name := "name"; dataType := StringType; nullable := true |} ].

Definition row (id : Z) (nm : string) : Row :=
  <["id" := VInt id]> (<["name" := VStr nm]> ∅).

Definition dated (id : Z) (d : string) : Row :=
  <["id" := VInt id]> (<["DateDATE" := VStr d]> ∅).

(** A service holding table cat.ns.t1 with the given schema and rows, the
    given key table, and accepting every frame and every merge. *)
Definition service (sch : StructType) (rows : list Row) (keys : list KeyRow) : Backend :=
  {| table := λ t, if bool_decide (t = "cat.ns.t1") then Ok {| schema := sch; collect := rows |}
                   else Raise (SparkError "TABLE_OR_VIEW_NOT_FOUND");
     key_rows := λ _, Ok keys;
     verify_rows := λ _ _, Ok ();
     forName := λ t, Ok {| delta_name := t |};
     execute := λ _, Ok () |}.

Definition key_id : KeyRow :=
  {| table_catalog := "cat"; table_schema := "ns"; table_name := "t1";
     column_name := "id" |}.

(** The table of the end-to-end scenarios: key column id, two rows. *)
Definition keyed : Backend := service id_name_schema [] [key_id].
Definition unkeyed : Backend := service id_name_schema [] [].
Definition grid : list Row := [row 1 "a"; row 2 "bb"].

(** The page after the table name was typed and row 1 was edited. *)
Definition edited : Session :=
  (run [(keyed, Type_table_name "cat.ns.t1");
        (keyed, Edit_cells [ {["rowId" := VStr "1"]} ] grid)] layout).1.

(** A grid with a date column; in [dates_bad] the second row holds a date
    text in another format. *)
Definition dates : list Row := [dated 1 "2024-02-13"; dated 2 "2024-03-01"].
Definition dates_bad : list Row := [dated 1 "2024-02-13"; dated 2 "13/02/2024"].



End Demo.

(** ** Date texts

    The texts that the directives of the format can match, and the ways of
    writing a date that the specification and the conversion accept. *)

Module DateText.

(** The character with code [n]. *)
Definition chr (n : nat) : ascii := ascii_of_nat n.

(** All texts a regular expression matches. *)
Fixpoint texts (r : regex) : list string :=
  match r with
  | Lit c => [String c EmptyString]
  | Range lo hi =>
      (λ n, String (chr n) EmptyString) <$>
        seq (nat_of_ascii lo) (S (nat_of_ascii hi) - nat_of_ascii lo)
  | Digit => (λ n, String (chr n) EmptyString) <$> seq 48 10
  | Seq r1 r2 => t1 ← texts r1; t2 ← texts r2; [t1 +:+ t2]
  | Alt r1 r2 => texts r1 ++ texts r2
  end.

Definition digit_char (n : Z) : ascii := chr (Z.to_nat (n + 48)).

Definition one_digit (n : Z) : string := String (digit_char n) EmptyString.

Definition two_digits (n : Z) : string :=
  String (digit_char (n / 10)) (one_digit (n mod 10)).

Definition four_digits (n : Z) : string :=
  String (digit_char (n / 1000))
    (String (digit_char (n / 100 mod 10)) (two_digits (n mod 100))).

(** A date of the calendar of [datetime.date]. *)
Definition valid_date (d : date) : Prop :=
  1 ≤ year d ≤ 9999 ∧ 1 ≤ month d ≤ 12 ∧
  1 ≤ day d ≤ days_in_month (year d) (month d).

(** The YYYY-MM-DD text of a date. *)
Definition iso_text (d : date) : string :=
  four_digits (year d) +:+ "-" +:+ two_digits (month d) +:+ "-" +:+ two_digits (day d).

(** The specification's well-formed YYYY-MM-DD string: the ten-character
    text of a date of the calendar. *)
Definition well_formed_Ymd (s : string) : Prop :=
  ∃ d, valid_date d ∧ s = iso_text d.

(** The ways the conversion lets a month and a day be written. *)
Definition month_texts (m : Z) : list string :=
  two_digits m :: (if m <? 10 then [one_digit m] else []).

Definition day_texts (d : Z) : list string :=
  two_digits d ::
  (if d <? 10 then [one_digit d; String " " (one_digit d)] else []).

Definition lenient_Ymd (s : string) (d : date) : Prop :=
  valid_date d ∧
  ∃ mt dt, mt ∈ month_texts (month d) ∧ dt ∈ day_texts (day d) ∧
           s = four_digits (year d) +:+ "-" +:+ mt +:+ "-" +:+ dt.

End DateText.

Export DateText.

(** * Properties *)

(** ** Results, comprehensions and indexing *)

Section Comprehension.
Context {A B : Type} (f : A → res B).

Lemma comprehension_Ok l ys :
  comprehension f l = Ok ys ↔ Forall2 (λ x y, f x = Ok y) l ys.
Proof.
  revert ys. induction l as [|x l IH]; intros ys; simpl.
  - split.
    + intros [= <-]. constructor.
    + intros H. inversion H. reflexivity.
  - destruct (f x) as [y|e] eqn:Hx.
    + destruct (comprehension f l) as [ys'|e] eqn:Hl.
      * split.
        -- intros [= <-]. constructor; [done | by apply IH].
        -- intros H. inversion H as [|? y' ? ys'' Hy Hys]; subst.
           apply IH in Hys. congruence.
      * split; [done |].
        intros H. inversion H as [|? y' ? ys'' Hy Hys]; subst.
        apply IH in Hys. congruence.
    + split; [done |].
      intros H. inversion H; subst. congruence.
Qed.

Lemma comprehension_length l ys :
  comprehension f l = Ok ys → length ys = length l.
Proof. intros H%comprehension_Ok. symmetry. by eapply Forall2_length. Qed.



End Comprehension.

Section Getitem.
Context {A : Type}.
Implicit Types (l : list A) (i : Z).


Lemma getitem_nonneg l i x :
  0 ≤ i → l !! Z.to_nat i = Some x → getitem l i = Ok x.
Proof.
  intros Hi Hx. unfold getitem. cbv zeta.
  pose proof (lookup_lt_Some _ _ _ Hx) as Hlt.
  assert ((i <? 0) = false) as E1 by (apply Z.ltb_ge; lia).
  assert ((Z.of_nat (length l) <=? i) = false) as E2 by (apply Z.leb_gt; lia).
  rewrite !E1, E2. simpl. by rewrite Hx.
Qed.

(** A negative position in range counts from the end of the list. *)
Lemma getitem_negative l i x :
  i < 0 → - Z.of_nat (length l) ≤ i →
  l !! Z.to_nat (i + Z.of_nat (length l)) = Some x → getitem l i = Ok x.
Proof.
  intros Hi Hlo Hx. unfold getitem. cbv zeta.
  assert ((i <? 0) = true) as E1 by (apply Z.ltb_lt; lia).
  assert ((i + Z.of_nat (length l) <? 0) = false) as E2 by (apply Z.ltb_ge; lia).
  assert ((Z.of_nat (length l) <=? i + Z.of_nat (length l)) = false) as E3
    by (apply Z.leb_gt; lia).
  rewrite !E1, E2, E3. simpl. by rewrite Hx.
Qed.

Lemma getitem_Ok_elem l i x : getitem l i = Ok x → x ∈ l.
Proof.
  unfold getitem. case_match; [done |].
  destruct (l !! _) eqn:E; [|done]. intros [= ->].
  by eapply list_elem_of_lookup_2.
Qed.

Lemma getitem_in_range l i :
  - Z.of_nat (length l) ≤ i < Z.of_nat (length l) → ∃ x, getitem l i = Ok x.
Proof.
  intros Hi. destruct (Z.ltb_spec i 0).
  - destruct (lookup_lt_is_Some_2 l (Z.to_nat (i + Z.of_nat (length l)))) as [x Hx];
      [lia |].
    exists x. by apply getitem_negative; [| lia |].
  - destruct (lookup_lt_is_Some_2 l (Z.to_nat i)) as [x Hx]; [lia |].
    exists x. by apply getitem_nonneg.
Qed.

End Getitem.

(** ** Dict comprehensions *)

Lemma dict_of_lookup {V} (f : string → V) (l : list string) (k : string) :
  dict_of ((λ c, (c, f c)) <$> l) !! k = if decide (k ∈ l) then Some (f k) else None.
Proof.
  unfold dict_of.
  assert (∀ m : gmap string V,
    foldl (λ m kv, <[kv.1 := kv.2]> m) m ((λ c, (c, f c)) <$> l) !! k =
    if decide (k ∈ l) then Some (f k) else m !! k) as Hgen.
  { induction l as [|c l IH]; intros m.
    - by rewrite decide_False by apply not_elem_of_nil.
    - rewrite fmap_cons. cbn [foldl]. rewrite IH. cbn [fst snd].
      destruct (decide (k ∈ l)) as [Hin|Hnin].
      + rewrite decide_True; [done | by right].
      + destruct (decide (k = c)) as [->|Hne].
        * rewrite decide_True; [| by left]. by rewrite lookup_insert_eq.
        * rewrite decide_False; [by rewrite lookup_insert_ne |].
          by intros [?|?]%elem_of_cons. }
  rewrite Hgen. by case_decide.
Qed.

(** ** Key resolution *)

(** The text has one more part than it has separators. *)
Lemma split_length sep s : length (split sep s) = S (count_char sep s).
Proof.
  induction s as [|a s IH]; simpl; [done |].
  case_bool_decide; simpl.
  - by rewrite IH.
  - destruct (split sep s) as [|h t] eqn:E; simpl in *; [done | lia].
Qed.

Lemma unpack3_Ok parts x :
  unpack3 parts = Ok x → length parts = 3%nat.
Proof.
  destruct parts as [|a [|b [|c [|d l]]]]; simpl; try done.
Qed.

Lemma unpack3_Raise parts :
  length parts ≠ 3%nat → ∃ msg, unpack3 parts = Raise (ValueError msg).
Proof.
  destruct parts as [|a [|b [|c [|d l]]]]; simpl; intros H; try done; eauto.
Qed.

(** C7. A table identifier that does not split at its dots into exactly
    three parts makes [get_primary_keys] raise (the [ValueError] of the
    unpacking); no key list is returned, whatever the key table holds. *)
Theorem get_primary_keys_malformed_identifier (B : Backend) (table_name : string) :
  length (split "." table_name) ≠ 3%nat →
  ∃ msg, get_primary_keys B table_name = Raise (ValueError msg).
Proof.
  intros H. destruct (unpack3_Raise _ H) as [msg Hmsg].
  exists msg. unfold get_primary_keys. by rewrite Hmsg.
Qed.

Lemma get_primary_keys_malformed_identifier_witness :
  ∃ msg, get_primary_keys Demo.keyed "cat.t1"
         = Raise (ValueError msg).
Proof.
  apply get_primary_keys_malformed_identifier. vm_compute. lia.
Defined.

(** With exactly three parts the only failure left is the one of reading the
    key table. *)
Lemma get_primary_keys_three_parts (B : Backend) (table_name : string) rows :
  length (split "." table_name) = 3%nat →
  key_rows B key_table = Ok rows →
  ∃ keys, get_primary_keys B table_name = Ok keys.
Proof.
  intros H Hrows. unfold get_primary_keys.
  destruct (split "." table_name) as [|a [|b [|c [|d l]]]]; try done.
  simpl. rewrite Hrows. simpl. eauto.
Qed.

(** ** Saving *)





Lemma projection_in_range (grid : list Row) (ids : list Z) :
  Forall (λ i, - Z.of_nat (length grid) ≤ i < Z.of_nat (length grid)) ids →
  ∃ rows, comprehension (getitem grid) ids = Ok rows.
Proof.
  induction 1 as [|i ids Hi _ [rows IH]]; simpl; [eauto |].
  destruct (getitem_in_range grid i Hi) as [x ->]. rewrite IH. eauto.
Qed.

(** [save_to_databricks] once the keys are known and not empty. *)
Lemma save_to_databricks_with_keys B ids table_name grid keys :
  get_primary_keys B table_name = Ok keys → keys ≠ [] →
  save_to_databricks B ids table_name grid =
  match comprehension (getitem grid) ids with
  | Raise e => (Raise (save_failure table_name e), [])
  | Ok rows =>
    match table B table_name with
    | Raise e => (Raise (save_failure table_name e), [])
    | Ok tbl =>
      match verify_rows B rows (schema tbl) with
      | Raise e => (Raise (save_failure table_name e), [])
      | Ok _ =>
        match forName B table_name with
        | Raise e => (Raise (save_failure table_name e), [])
        | Ok target_df =>
            let changed_data := {| df_schema := schema tbl; df_data := rows |} in
            let m :=
              merge_builder target_df changed_data
                (join " AND " ((λ key, "target." +:+ key +:+ " = source." +:+ key) <$> keys))
                (filter (λ col, col ∉ keys) (columns changed_data)) in
            (match execute B m with
             | Ok _ => Ok ()
             | Raise e => Raise (save_failure table_name e)
             end, [m])
        end
      end
    end
  end.
Proof.
  intros Hk Hne. unfold save_to_databricks. rewrite Hk. unfold Py.bind at 1.
  rewrite bool_decide_eq_false_2 by done.
  destruct (comprehension (getitem grid) ids) as [rows|e]; [|done].
  unfold Py.bind at 1. destruct (table B table_name) as [tbl|e]; [|done].
  unfold Py.bind at 1, createDataFrame.
  destruct (verify_rows B rows (schema tbl)) as [[]|e]; [|done].
  unfold Py.bind at 1 2. destruct (forName B table_name) as [dt|e]; [|done].
  done.
Qed.

(** C4. When key resolution returns the empty list, [save_to_databricks]
    raises the no-primary-key failure and no merge reaches the backend. So
    does the save callback: it issues no merge and reports an error text,
    which is the no-primary-key failure whenever the date pass lets the
    save reach key resolution. *)
Theorem empty_keys_abort_save (B : Backend) (ids : list Z) (table_name : string)
    (grid : list Row) :
  get_primary_keys B table_name = Ok [] →
  save_to_databricks B ids table_name grid =
    (Raise (save_failure table_name (no_primary_key table_name)), [])
  ∧ ∀ n, (save_data B n ids table_name grid).2 = []
         ∧ (0 < n → ∃ msg, (save_data B n ids table_name grid).1.1 =
                            "Error with saving data: " +:+ msg)
         ∧ (0 < n → (convert_dates grid).1 = Ok () →
            (save_data B n ids table_name grid).1.1 =
              "Error with saving data: " +:+
              exn_str (save_failure table_name (no_primary_key table_name))).
Proof.
  intros Hk.
  assert (∀ g, save_to_databricks B ids table_name g =
               (Raise (save_failure table_name (no_primary_key table_name)), [])) as Hsave.
  { intros g. unfold save_to_databricks. by rewrite Hk. }
  split; [apply Hsave |].
  intros n. unfold save_data. destruct (0 <? n) eqn:Hn.
  - destruct (convert_dates grid) as [[[]|e] grid'].
    + rewrite Hsave. split; [done |]. split; [intros _; eauto | done].
    + split; [done |]. split; [intros _; eauto | done].
  - apply Z.ltb_ge in Hn. split; [done |]. split; intros; lia.
Qed.

Lemma empty_keys_abort_save_witness :
  save_to_databricks Demo.unkeyed [1] "cat.ns.t1" Demo.grid =
    (Raise (save_failure "cat.ns.t1" (no_primary_key "cat.ns.t1")), [])
  ∧ ∀ n, (save_data Demo.unkeyed n [1] "cat.ns.t1" Demo.grid).2 = []
         ∧ (0 < n → ∃ msg, (save_data Demo.unkeyed n [1] "cat.ns.t1" Demo.grid).1.1 =
                            "Error with saving data: " +:+ msg)
         ∧ (0 < n → (convert_dates Demo.grid).1 = Ok () →
            (save_data Demo.unkeyed n [1] "cat.ns.t1" Demo.grid).1.1 =
              "Error with saving data: " +:+
              exn_str (save_failure "cat.ns.t1" (no_primary_key "cat.ns.t1"))).
Proof.
  apply empty_keys_abort_save. vm_compute. reflexivity.
Defined.

(** The second end-to-end scenario of the specification: no key row at all,
    the save reports the failure and nothing reaches the backend. *)
Example scenario_no_key :
  save_data Demo.unkeyed 1 [1] "cat.ns.t1" Demo.grid =
    ("Error with saving data: Failed to save data to Databricks table 'cat.ns.t1': ❌ Keine Primärschlüssel gefunden für cat.ns.t1.",
     Demo.grid, []).
Proof. vm_compute. reflexivity. Qed.




(** C1. In a save whose key list is resolved and not empty, a merge that
    reaches the backend is the only one; it is a merge into the table's
    Delta table as "target" of the frame of the projected rows as "source",
    on the equalities target.k = source.k of all key columns joined by AND,
    with two clauses: an update that sets exactly the columns of the frame
    that are not keys, each to source.<column>, and an insert of all columns
    for unmatched rows. Such a merge is issued whenever the projection, the
    table's schema, the frame and the Delta table are obtained. *)
Theorem merge_on_keys_updates_non_keys (B : Backend) (ids : list Z)
    (table_name : string) (grid : list Row) (keys : list string) :
  get_primary_keys B table_name = Ok keys → keys ≠ [] →
  (∀ m, m ∈ (save_to_databricks B ids table_name grid).2 →
     (save_to_databricks B ids table_name grid).2 = [m]
     ∧ forName B table_name = Ok (alias_of (merge_target m))
     ∧ alias_name (merge_target m) = "target"
     ∧ alias_name (merge_source m) = "source"
     ∧ comprehension (getitem grid) ids = Ok (df_data (alias_of (merge_source m)))
     ∧ (∃ tbl, table B table_name = Ok tbl
               ∧ df_schema (alias_of (merge_source m)) = schema tbl)
     ∧ merge_on m =
         join " AND " ((λ k, "target." +:+ k +:+ " = source." +:+ k) <$> keys)
     ∧ ∃ set, merge_clauses m = [WhenMatchedUpdate set; WhenNotMatchedInsertAll]
         ∧ ∀ c v, set !! c = Some v ↔
                  c ∈ columns (alias_of (merge_source m)) ∧ (c ∉ keys)
                  ∧ v = "source." +:+ c)
  ∧ (∀ rows tbl target_df,
       comprehension (getitem grid) ids = Ok rows →
       table B table_name = Ok tbl →
       verify_rows B rows (schema tbl) = Ok () →
       forName B table_name = Ok target_df →
       ∃ m, (save_to_databricks B ids table_name grid).2 = [m]).
Proof.
  intros Hk Hne. rewrite (save_to_databricks_with_keys _ _ _ _ _ Hk Hne). split.
  - intros m.
    destruct (comprehension (getitem grid) ids) as [rows|e]; [|by intros ?%elem_of_nil].
    destruct (table B table_name) as [tbl|e]; [|by intros ?%elem_of_nil].
    destruct (verify_rows B rows (schema tbl)) as [[]|e]; [|by intros ?%elem_of_nil].
    destruct (forName B table_name) as [dt|e]; [|by intros ?%elem_of_nil].
    cbv zeta. cbn [snd]. intros ->%list_elem_of_singleton.
    repeat split; try done.
    + by exists tbl.
    + eexists. split; [reflexivity |].
      intros c v. rewrite dict_of_lookup. cbn [alias_of merge_source merge].
      case_decide as Hc.
      * apply list_elem_of_filter in Hc as [Hnk Hcol].
        split; [by intros [= <-] | by intros (_ & _ & ->)].
      * split; [done |]. intros (Hcol & Hnk & _). destruct Hc.
        by apply list_elem_of_filter.
  - intros rows tbl dt -> -> -> ->. cbv zeta. eauto.
Qed.

Lemma merge_on_keys_updates_non_keys_witness :
  (∀ m, m ∈ (save_to_databricks Demo.keyed [1] "cat.ns.t1" Demo.grid).2 →
     (save_to_databricks Demo.keyed [1] "cat.ns.t1" Demo.grid).2 = [m]
     ∧ forName Demo.keyed "cat.ns.t1" = Ok (alias_of (merge_target m))
     ∧ alias_name (merge_target m) = "target"
     ∧ alias_name (merge_source m) = "source"
     ∧ comprehension (getitem Demo.grid) [1] = Ok (df_data (alias_of (merge_source m)))
     ∧ (∃ tbl, table Demo.keyed "cat.ns.t1" = Ok tbl
               ∧ df_schema (alias_of (merge_source m)) = schema tbl)
     ∧ merge_on m =
         join " AND " ((λ k, "target." +:+ k +:+ " = source." +:+ k) <$> ["id"])
     ∧ ∃ set, merge_clauses m = [WhenMatchedUpdate set; WhenNotMatchedInsertAll]
         ∧ ∀ c v, set !! c = Some v ↔
                  c ∈ columns (alias_of (merge_source m)) ∧ (c ∉ ["id"])
                  ∧ v = "source." +:+ c)
  ∧ (∀ rows tbl target_df,
       comprehension (getitem Demo.grid) [1] = Ok rows →
       table Demo.keyed "cat.ns.t1" = Ok tbl →
       verify_rows Demo.keyed rows (schema tbl) = Ok () →
       forName Demo.keyed "cat.ns.t1" = Ok target_df →
       ∃ m, (save_to_databricks Demo.keyed [1] "cat.ns.t1" Demo.grid).2 = [m]).
Proof.
  apply (merge_on_keys_updates_non_keys Demo.keyed [1] "cat.ns.t1" Demo.grid ["id"]).
  - vm_compute. reflexivity.
  - discriminate.
Defined.

(** The first end-to-end scenario of the specification: row 1 edited, the
    merge carries that row, matches on id and updates name only. *)
Example scenario_edit_row_1 :
  ∃ m, save_to_databricks Demo.keyed [1] "cat.ns.t1" Demo.grid = (Ok (), [m])
       ∧ df_data (alias_of (merge_source m)) = [Demo.row 2 "bb"]
       ∧ merge_on m = "target.id = source.id"
       ∧ merge_clauses m =
           [WhenMatchedUpdate {["name" := "source.name"]}; WhenNotMatchedInsertAll].
Proof. eexists. vm_compute. repeat split. Qed.

(** ** Column definitions *)

(** No column name equals [True]. *)
Lemma contains_True_names (names : list string) :
  contains (VBool true) (VStr <$> names) = false.
Proof. induction names as [|k names IH]; [done | exact IH]. Qed.

(** Whatever the keys, every column definition is editable: the test
    [True not in unique_keys] does not look at the column. *)
Lemma generate_column_defs_editable (B : Backend) data table_schema table_name defs :
  generate_column_defs B data table_schema table_name = Ok defs →
  Forall (λ d, editable d = true) defs.
Proof.
  unfold generate_column_defs.
  destruct (get_primary_keys B table_name) as [keys|e]; [|done].
  intros [= <-]. apply Forall_fmap, Forall_true. intros col.
  unfold compose. cbn [editable]. by rewrite contains_True_names.
Qed.

(** The cell style marks the key columns and only them. *)
Lemma generate_column_defs_style (B : Backend) data table_schema table_name keys defs :
  get_primary_keys B table_name = Ok keys →
  generate_column_defs B data table_schema table_name = Ok defs →
  Forall (λ d, cellStyle d ≠ ∅ ↔ field d ∈ keys) defs.
Proof.
  intros Hk. unfold generate_column_defs. rewrite Hk. intros [= <-].
  apply Forall_fmap, Forall_true. intros col.
  assert ((if bool_decide (keys = []) then [] else keys) = keys) as ->
    by (by case_bool_decide; subst).
  unfold compose. cbn [cellStyle field].
  case_bool_decide as Hin.
  - split; [done |]. intros _ Hempty.
    apply (f_equal (λ m : gmap string string, m !! "backgroundColor")) in Hempty.
    by vm_compute in Hempty.
  - split; [done | by intros ?].
Qed.

(** C5 fails on the code. For the table of the scenarios, whose key column
    is id, the definition built for id carries the distinguishing style but
    is editable, like the one of the non-key column name. *)
Theorem key_column_is_editable :
  generate_column_defs Demo.keyed Demo.grid Demo.id_name_schema "cat.ns.t1" =
  Ok [ {| headerName := "id"; field := "id"; editable := true;
          col_type := "numericColumn"; col_filter := true;
          cellStyle := {["backgroundColor" := "rgba(241, 137, 0, 0.2)"]} |};
       {| headerName := "name"; field := "name"; editable := true;
          col_type := "textColumn"; col_filter := true;
          cellStyle := ∅ |} ].
Proof. vm_compute. reflexivity. Qed.

(** ** Change tracking *)

(** The row index an edit entry carries. *)
Lemma track_changes_None_cells ids :
  track_changes None ids = Ok (default [] ids).
Proof. by destruct ids as [[|i ids]|]. Qed.

(** C2, as the code has it. An edit event whose entries all carry a row id
    that [int] accepts appends these indices, in order, to the recorded
    list: nothing is removed or merged, so an index occurs afterwards as
    often as it did before plus once per entry carrying it, and the
    projection of a later save holds one row per occurrence. *)
Theorem track_changes_appends (changed_cells : option (list Row))
    (changed_rows_id : option (list Z)) (new : list Z) :
  comprehension (λ entry, int (default VNone (entry !! "rowId")))
    (default [] changed_cells) = Ok new →
  track_changes changed_cells changed_rows_id = Ok (default [] changed_rows_id ++ new)
  ∧ (∀ i, count_occ Z.eq_dec (default [] changed_rows_id ++ new) i =
          (count_occ Z.eq_dec (default [] changed_rows_id) i + count_occ Z.eq_dec new i)%nat)
  ∧ (∀ (grid rows : list Row),
       comprehension (getitem grid) (default [] changed_rows_id ++ new) = Ok rows →
       length rows = (length (default [] changed_rows_id) + length new)%nat).
Proof.
  intros Hnew. split; [|split].
  - unfold track_changes.
    destruct changed_rows_id as [[|i ids]|], changed_cells as [[|entry cells]|];
      cbn [from_option id] in *;
      first [ rewrite Hnew; reflexivity
            | injection Hnew as <-; by rewrite ?app_nil_r ].
  - intros i. apply count_occ_app.
  - intros grid rows Hrows. apply comprehension_length in Hrows.
    by rewrite Hrows, length_app.
Qed.

Lemma track_changes_appends_witness :
  track_changes (Some [ {["rowId" := VStr "5"]}; {["rowId" := VStr "7"]} ]) (Some [2; 5])
    = Ok (default [] (Some [2; 5]) ++ [5; 7])
  ∧ (∀ i, count_occ Z.eq_dec (default [] (Some [2; 5]) ++ [5; 7]) i =
          (count_occ Z.eq_dec (default [] (Some [2; 5]%Z)) i
           + count_occ Z.eq_dec [5; 7]%Z i)%nat)
  ∧ (∀ (grid rows : list Row),
       comprehension (getitem grid) (default [] (Some [2; 5]) ++ [5; 7]) = Ok rows →
       length rows = (length (default [] (Some [2; 5]%Z)) + length [5; 7]%Z)%nat).
Proof.
  apply (track_changes_appends
           (Some [ {["rowId" := VStr "5"]}; {["rowId" := VStr "7"]} ]) (Some [2; 5]) [5; 7]).
  vm_compute. reflexivity.
Defined.

(** C2 as stated fails: index 3, recorded once and reported again by the
    next event, is held twice; so is an index that one event reports
    twice. *)
Lemma repeated_index_is_kept_twice :
  track_changes (Some [ {["rowId" := VStr "3"]} ]) (Some [3]) = Ok [3; 3]
  ∧ track_changes (Some [ {["rowId" := VStr "3"]}; {["rowId" := VStr "3"]} ]) (Some [])
    = Ok [3; 3]
  ∧ count_occ Z.eq_dec [3; 3] 3 = 2%nat.
Proof. repeat split; vm_compute; reflexivity. Qed.

(** ** The page *)

(** Only an edit event writes the store of changed rows: typing, loading
    and saving leave it as it is. *)
Lemma store_written_by_edits_only (B : Backend) (ev : event) (s : Session) :
  (∀ cells rows, ev ≠ Edit_cells cells rows) →
  changed_rows_store (step B ev s).1 = changed_rows_store s.
Proof.
  intros Hev. destruct ev as [text| | |cells rows|]; cbn [step]; try done.
  - unfold run_load. by destruct (load_data_callback _ _ _ _) as [[? ?] ?].
  - unfold run_load. by destruct (load_data_callback _ _ _ _) as [[? ?] ?].
  - by destruct (Hev cells rows).
  - by destruct (save_data _ _ _ _ _) as [[? ?] ?].
Qed.

Lemma store_kept_without_edits (trace : list (Backend * event)) (s : Session) :
  Forall (λ be, ∀ cells rows, be.2 ≠ Edit_cells cells rows) trace →
  changed_rows_store (run trace s).1 = changed_rows_store s.
Proof.
  intros H. revert s. induction H as [|[B ev] trace Hev _ IH]; intros s; [done |].
  cbn [run]. pose proof (store_written_by_edits_only B ev s Hev) as Hstep.
  destruct (step B ev s) as [s1 log1]. specialize (IH s1).
  destruct (run trace s1) as [s2 log2]. cbn [fst snd] in *. congruence.
Qed.

(** [save_data] looks at the click count only to see that it is positive. *)
Lemma save_data_clicks (B : Backend) n ids table_name grid :
  0 < n → save_data B n ids table_name grid = save_data B 1 ids table_name grid.
Proof.
  intros Hn. unfold save_data.
  by assert ((0 <? n) = true) as -> by (apply Z.ltb_lt; lia).
Qed.

(** What a click on Save changes: the click count and the status text. *)
Lemma step_save (B : Backend) (s : Session) :
  let s' := (step B Click_save s).1 in
  changed_rows_store s' = changed_rows_store s
  ∧ rowData s' = rowData s
  ∧ table_name_input s' = table_name_input s
  ∧ save_clicks s' = save_clicks s + 1
  ∧ (step B Click_save s).2 =
      (save_data B (save_clicks s + 1) (changed_rows_store s)
         (table_name_input s) (rowData s)).2.
Proof.
  cbn [step]. by destruct (save_data _ _ _ _ _) as [[? ?] ?].
Qed.

(** C9. Saving never writes the store of changed rows. After any number of
    clicks on Save, each against the backend as it then is and whether it
    succeeds or fails, the store holds what it held before, and every one
    of these saves was run on the same recorded indices, table name and
    grid rows: the merges executed are those of saving that same selection
    once per click. *)
Theorem save_keeps_changed_rows (backends : list Backend) (s : Session) :
  0 ≤ save_clicks s →
  changed_rows_store (run ((λ B, (B, Click_save)) <$> backends) s).1
    = changed_rows_store s
  ∧ (run ((λ B, (B, Click_save)) <$> backends) s).2 =
      concat ((λ B, (save_data B 1 (changed_rows_store s) (table_name_input s)
                       (rowData s)).2) <$> backends).
Proof.
  revert s. induction backends as [|B backends IH]; intros s Hs; [done |].
  rewrite fmap_cons. cbn [run].
  destruct (step B Click_save s) as [s1 log1] eqn:Hstep.
  pose proof (step_save B s) as (Hstore & Hrows & Hname & Hclicks & Hlog).
  rewrite Hstep in Hstore, Hrows, Hname, Hclicks, Hlog. cbn [fst snd] in *.
  destruct (IH s1) as [IH1 IH2]; [lia |].
  destruct (run _ s1) as [s2 log2]. cbn [fst snd] in *.
  split; [congruence |].
  rewrite fmap_cons, concat_cons. f_equal.
  - rewrite Hlog. by rewrite save_data_clicks by lia.
  - rewrite IH2. by rewrite Hstore, Hrows, Hname.
Qed.

Lemma save_keeps_changed_rows_witness :
  changed_rows_store
    (run ((λ B, (B, Click_save)) <$> [Demo.keyed; Demo.unkeyed; Demo.keyed]) Demo.edited).1
    = changed_rows_store Demo.edited
  ∧ (run ((λ B, (B, Click_save)) <$> [Demo.keyed; Demo.unkeyed; Demo.keyed]) Demo.edited).2 =
      concat ((λ B, (save_data B 1 (changed_rows_store Demo.edited)
                       (table_name_input Demo.edited) (rowData Demo.edited)).2)
              <$> [Demo.keyed; Demo.unkeyed; Demo.keyed]).
Proof.
  apply (save_keeps_changed_rows [Demo.keyed; Demo.unkeyed; Demo.keyed] Demo.edited).
  by vm_compute.
Defined.

(** In the scenario, the edited row is sent by the first save and again by
    the next one that finds the key. *)
Example scenario_row_is_resent :
  changed_rows_store Demo.edited = [1]
  ∧ (λ m, df_data (alias_of (merge_source m))) <$>
      (run ((λ B, (B, Click_save)) <$> [Demo.keyed; Demo.unkeyed; Demo.keyed]) Demo.edited).2
    = [[Demo.row 2 "bb"]; [Demo.row 2 "bb"]].
Proof. split; vm_compute; reflexivity. Qed.

(** ** The date pass of [save_data] *)

Lemma convert_row_absent (row : Row) :
  row !! "DateDATE" = None → convert_row row = Ok row.
Proof. intros H. unfold convert_row. by rewrite H. Qed.

Lemma convert_row_present (row row' : Row) v :
  row !! "DateDATE" = Some v →
  convert_row row = Ok row' ↔
  ∃ d, strptime v = Ok d ∧ row' = <["DateDATE" := VDate d]> row.
Proof.
  intros H. unfold convert_row. rewrite H.
  destruct (strptime v) as [d|[]]; split; try done.
  - intros [= <-]. eauto.
  - by intros (d' & [= <-] & ->).
  - by intros (? & ? & _).
  - by intros (? & ? & _).
  - by intros (? & ? & _).
  - by intros (? & ? & _).
  - by intros (? & ? & _).
Qed.


Lemma convert_row_malformed (row : Row) v m :
  row !! "DateDATE" = Some v → strptime v = Raise (ValueError m) →
  convert_row row = Raise (ValueError ("Error converting DateDATE to date: " +:+ m)).
Proof. intros H Hs. unfold convert_row. by rewrite H, Hs. Qed.

Lemma convert_dates_length (grid : list Row) :
  length (convert_dates grid).2 = length grid.
Proof.
  induction grid as [|row grid IH]; simpl; [done |].
  destruct (convert_row row); [|done].
  destruct (convert_dates grid). simpl in *. by rewrite IH.
Qed.

(** The pass stops at the first row it cannot convert: the rows before it
    are converted, that row and the rows after it are as they were. *)
Lemma convert_dates_spec (grid : list Row) :
  ∃ k done,
    Forall2 (λ row row', convert_row row = Ok row') (take k grid) done
    ∧ (convert_dates grid).2 = done ++ drop k grid
    ∧ ((k = length grid ∧ (convert_dates grid).1 = Ok ())
       ∨ ∃ row e, grid !! k = Some row ∧ convert_row row = Raise e
                  ∧ (convert_dates grid).1 = Raise e).
Proof.
  induction grid as [|row grid IH]; simpl.
  - exists 0%nat, []. split; [constructor |]. split; [done |]. by left.
  - destruct (convert_row row) as [row'|e] eqn:Hrow.
    + destruct IH as (k & done & Hdone & Hout & Hcase).
      destruct (convert_dates grid) as [r rest']. cbn [fst snd] in *.
      exists (S k), (row' :: done). split; [by constructor |].
      split; [by rewrite Hout |].
      destruct Hcase as [[-> ->]|(r0 & e & Hk & Hr0 & ->)]; [by left |].
      right. by exists r0, e.
    + exists 0%nat, []. split; [constructor |]. split; [done |].
      right. by exists row, e.
Qed.


(** The pass does not look at the recorded indices, the table or the
    service. *)
Lemma save_data_grid (B : Backend) n ids table_name grid :
  0 < n → (save_data B n ids table_name grid).1.2 = (convert_dates grid).2.
Proof.
  intros Hn. unfold save_data.
  assert ((0 <? n) = true) as -> by (apply Z.ltb_lt; lia).
  destruct (convert_dates grid) as [[[]|e] grid']; [|done].
  by destruct (save_to_databricks _ _ _ _) as [[[]|e] log].
Qed.

Lemma save_data_pass_fails (B : Backend) n ids table_name grid e :
  0 < n → (convert_dates grid).1 = Raise e →
  (save_data B n ids table_name grid).1.1 = "Error with saving data: " +:+ exn_str e
  ∧ (save_data B n ids table_name grid).2 = [].
Proof.
  intros Hn He. unfold save_data.
  assert ((0 <? n) = true) as -> by (apply Z.ltb_lt; lia).
  destruct (convert_dates grid) as [r grid']. simpl in He. by subst.
Qed.






Lemma save_data_pass_completes (B : Backend) n ids table_name grid grid' :
  0 < n → convert_dates grid = (Ok (), grid') →
  (save_data B n ids table_name grid).1.1 =
    match (save_to_databricks B ids table_name grid').1 with
    | Ok _ => "Data was successfully saved!"
    | Raise e => "Error with saving data: " +:+ exn_str e
    end
  ∧ (save_data B n ids table_name grid).2 = (save_to_databricks B ids table_name grid').2.
Proof.
  intros Hn Hpass. unfold save_data.
  assert ((0 <? n) = true) as -> by (apply Z.ltb_lt; lia).
  rewrite Hpass. by destruct (save_to_databricks _ _ _ _) as [[[]|e] log].
Qed.

(** What the handler of the loop makes of an exception of the conversion:
    a [ValueError] is raised anew with the words about DateDATE, any other
    exception passes unchanged. *)
Lemma convert_row_Raise (row : Row) e0 :
  convert_row row = Raise e0 →
  ∃ v e, row !! "DateDATE" = Some v ∧ strptime v = Raise e
         ∧ e0 = match e with
                | ValueError m => ValueError ("Error converting DateDATE to date: " +:+ m)
                | _ => e
                end.
Proof.
  unfold convert_row. destruct (row !! "DateDATE") as [v|]; [|done].
  destruct (strptime v) as [d|e] eqn:E; [done |].
  intros H. exists v, e. split; [done |]. split; [done |].
  destruct e; by injection H as <-.
Qed.

(** C10. A save first runs the date pass over the whole grid, updating the
    rows in place. The pass goes on as long as the DateDATE value of the row
    at hand, if the row has one, is converted by [strptime]; each of these
    rows is left with that value replaced by the date, a row without the
    field as it is. Either the pass reaches the end, and then the merge is
    built from the converted rows, which stay converted whatever the outcome
    of the merge; or it stops at the first row, edited or not, whose
    DateDATE the conversion refuses, and then the save ends with that error
    and without a merge, while the rows before that one stay converted and
    that row and the rows after it are as they were. *)
Theorem save_converts_grid_in_place (B : Backend) (n : Z) (ids : list Z)
    (table_name : string) (grid : list Row) :
  0 < n →
  ∃ (k : nat) (done : list Row),
    length done = k ∧ (k ≤ length grid)%nat
    ∧ (save_data B n ids table_name grid).1.2 = done ++ drop k grid
    ∧ (∀ (i : nat) row,
         (i < k)%nat → grid !! i = Some row →
         match row !! "DateDATE" with
         | None => done !! i = Some row
         | Some v => ∃ d, strptime v = Ok d
                          ∧ done !! i = Some (<["DateDATE" := VDate d]> row)
         end)
    ∧ ((k = length grid
        ∧ (save_data B n ids table_name grid).2 = (save_to_databricks B ids table_name done).2
        ∧ (save_data B n ids table_name grid).1.1 =
            match (save_to_databricks B ids table_name done).1 with
            | Ok _ => "Data was successfully saved!"
            | Raise e => "Error with saving data: " +:+ exn_str e
            end)
       ∨ (∃ row v e,
            grid !! k = Some row ∧ row !! "DateDATE" = Some v
            ∧ strptime v = Raise e
            ∧ (save_data B n ids table_name grid).1.1 =
                "Error with saving data: " +:+
                match e with
                | ValueError m => "Error converting DateDATE to date: " +:+ m
                | _ => exn_str e
                end
            ∧ (save_data B n ids table_name grid).2 = [])).
Proof.
  intros Hn.
  destruct (convert_dates_spec grid) as (k & done & Hdone & Hout & Hcase).
  assert (k ≤ length grid)%nat as Hk.
  { destruct Hcase as [[-> _]|(row & e & Hrow & _)]; [done |].
    apply lookup_lt_Some in Hrow. lia. }
  exists k, done. split; [|split; [done |split; [|split]]].
  - apply Forall2_length in Hdone. rewrite length_take in Hdone. lia.
  - by rewrite save_data_grid.
  - intros i row Hik Hi.
    assert (take k grid !! i = Some row) as Hti by (by apply lookup_take_Some).
    destruct (Forall2_lookup_l _ _ _ _ _ Hdone Hti) as (row' & Hrow' & Hconv).
    destruct (row !! "DateDATE") as [v|] eqn:E.
    + destruct (proj1 (convert_row_present _ _ _ E) Hconv) as (d & Hd & Heq).
      exists d. by rewrite Hrow', Heq.
    + rewrite convert_row_absent in Hconv by done. by simplify_eq.
  - destruct Hcase as [[-> Hok]|(row & e0 & Hrow & He & Hraise)].
    + left. split; [done |].
      rewrite drop_all, app_nil_r in Hout.
      assert (convert_dates grid = (Ok (), done)) as Hpass.
      { destruct (convert_dates grid). simpl in *. by subst. }
      destruct (save_data_pass_completes B n ids table_name grid done Hn Hpass).
      done.
    + right. destruct (convert_row_Raise _ _ He) as (v & e & Hv & Hs & ->).
      exists row, v, e. split; [done |]. split; [done |]. split; [done |].
      destruct (save_data_pass_fails B n ids table_name grid _ Hn Hraise) as [Hst Hlog].
      split; [|done]. rewrite Hst. by destruct e.
Qed.

(** The save of [Demo.dates_bad] with only row 0 recorded: the pass
    converts row 0 and stops at row 1, which was not edited; the save fails
    with the error of that row, no merge is issued, and row 0 stays
    converted. *)
Lemma save_converts_grid_in_place_witness :
  (save_data Demo.keyed 1 [0] "cat.ns.t1" Demo.dates_bad).1.2 =
    [ <["DateDATE" := VDate (mkdate 2024 2 13)]> (Demo.dated 1 "2024-02-13");
      Demo.dated 2 "13/02/2024" ]
  ∧ (save_data Demo.keyed 1 [0] "cat.ns.t1" Demo.dates_bad).1.1 =
      "Error with saving data: Error converting DateDATE to date: time data '13/02/2024' does not match format '%Y-%m-%d'"
  ∧ (save_data Demo.keyed 1 [0] "cat.ns.t1" Demo.dates_bad).2 = [].
Proof.
  destruct (save_converts_grid_in_place Demo.keyed 1 [0] "cat.ns.t1" Demo.dates_bad)
    as (k & done & Hlen & Hk & Hout & Hconv & Hcase); [lia |].
  assert (strptime (VStr "2024-02-13") = Ok (mkdate 2024 2 13)) as Hgood
    by (vm_compute; reflexivity).
  assert (strptime (VStr "13/02/2024") =
          Raise (ValueError "time data '13/02/2024' does not match format '%Y-%m-%d'"))
    as Hbad by (vm_compute; reflexivity).
  assert (Demo.dated 1 "2024-02-13" !! "DateDATE" = Some (VStr "2024-02-13")) as H0
    by (vm_compute; reflexivity).
  assert (Demo.dated 2 "13/02/2024" !! "DateDATE" = Some (VStr "13/02/2024")) as H1
    by (vm_compute; reflexivity).
  assert (k = 1%nat) as ->.
  { destruct Hcase as [[-> _]|(row & v & e & Hrow & Hv & Hs & _)].
    - specialize (Hconv 1%nat (Demo.dated 2 "13/02/2024")).
      rewrite H1 in Hconv. destruct Hconv as (d & Hd & _); [simpl; lia | done |].
      congruence.
    - destruct k as [|[|k]]; [|done |done].
      injection Hrow as <-. rewrite H0 in Hv. injection Hv as <-. congruence. }
  specialize (Hconv 0%nat (Demo.dated 1 "2024-02-13")).
  rewrite H0 in Hconv. destruct Hconv as (d & Hd & Hdone); [lia | done |].
  rewrite Hgood in Hd. injection Hd as <-.
  destruct done as [|r0 [|r1 done]]; [done | | done].
  injection Hdone as ->.
  split; [exact Hout |].
  destruct Hcase as [[[=] _]|(row & v & e & Hrow & Hv & Hs & Hst & Hlog)].
  injection Hrow as <-. rewrite H1 in Hv. injection Hv as <-.
  rewrite Hbad in Hs. injection Hs as <-. by split.
Defined.

(** The rows in memory after three saves: a successful one, one that fails
    on a row that was not edited, one that fails after the pass for want of
    a key. *)
Example scenario_rows_after_save :
  (save_data Demo.keyed 1 [0] "cat.ns.t1" Demo.dates).1 =
    ("Data was successfully saved!",
     [ <["DateDATE" := VDate (mkdate 2024 2 13)]> (Demo.dated 1 "2024-02-13");
       <["DateDATE" := VDate (mkdate 2024 3 1)]> (Demo.dated 2 "2024-03-01") ])
  ∧ (save_data Demo.keyed 1 [0] "cat.ns.t1" Demo.dates_bad).1.2 =
     [ <["DateDATE" := VDate (mkdate 2024 2 13)]> (Demo.dated 1 "2024-02-13");
       Demo.dated 2 "13/02/2024" ]
  ∧ (save_data Demo.unkeyed 1 [0] "cat.ns.t1" Demo.dates).1.2 =
     [ <["DateDATE" := VDate (mkdate 2024 2 13)]> (Demo.dated 1 "2024-02-13");
       <["DateDATE" := VDate (mkdate 2024 3 1)]> (Demo.dated 2 "2024-03-01") ]
  ∧ (save_data Demo.unkeyed 1 [0] "cat.ns.t1" Demo.dates).2 = [].
Proof. repeat split; vm_compute; reflexivity. Qed.

(** ** The conversion of a date text *)

Lemma string_app_cons a (s t : string) : String a s +:+ t = String a (s +:+ t).
Proof. reflexivity. Qed.

Lemma string_app_assoc (s t u : string) : (s +:+ t) +:+ u = s +:+ t +:+ u.
Proof.
  induction s as [|a s IH]; [done |]. by rewrite !string_app_cons, IH.
Qed.

Lemma string_app_nil_r (s : string) : s +:+ EmptyString = s.
Proof.
  induction s as [|a s IH]; [done |]. by rewrite string_app_cons, IH.
Qed.

Lemma in_range_spec lo hi a :
  in_range lo hi a = true ↔ (nat_of_ascii lo ≤ nat_of_ascii a ≤ nat_of_ascii hi)%nat.
Proof.
  unfold in_range, nat_of_ascii. rewrite andb_true_iff, !N.leb_le. lia.
Qed.

Lemma digit_of_spec a :
  is_Some (digit_of a) ↔ (48 ≤ nat_of_ascii a ≤ 57)%nat.
Proof.
  unfold digit_of, nat_of_ascii. cbv zeta.
  destruct ((48 <=? Z.of_N (N_of_ascii a)) && (Z.of_N (N_of_ascii a) <=? 57)) eqn:E.
  - apply andb_true_iff in E as [?%Z.leb_le ?%Z.leb_le]. split; [lia | eauto].
  - apply andb_false_iff in E as [?%Z.leb_gt| ?%Z.leb_gt];
      (split; [by intros [? ?] | lia]).
Qed.

(** The characters with a code between two bounds. *)
Lemma chr_seq a lo n :
  (lo + n ≤ 256)%nat →
  String a EmptyString ∈ (λ k, String (chr k) EmptyString) <$> seq lo n ↔
  (lo ≤ nat_of_ascii a < lo + n)%nat.
Proof.
  intros Hbound. rewrite list_elem_of_fmap. split.
  - intros (k & [= ->] & Hk%elem_of_seq).
    unfold chr. rewrite nat_ascii_embedding; lia.
  - intros Ha. exists (nat_of_ascii a). unfold chr.
    rewrite ascii_nat_embedding. split; [done |]. apply elem_of_seq. lia.
Qed.

Lemma singleton_text t a :
  t ∈ [String a EmptyString] ↔ t = String a EmptyString.
Proof. apply list_elem_of_singleton. Qed.

(** The matcher finds exactly the splits of the text whose first part is a
    text of the expression. *)
Lemma matches_texts (r : regex) (s t rest : string) :
  (t, rest) ∈ matches r s ↔ t ∈ texts r ∧ s = t +:+ rest.
Proof.
  revert s t rest. induction r as [c|lo hi| |r1 IH1 r2 IH2|r1 IH1 r2 IH2];
    intros s t rest; cbn [matches texts].
  - destruct s as [|a s'].
    + split; [by intros ?%elem_of_nil |]. by intros [->%singleton_text ?].
    + case_bool_decide as Hc.
      * subst a. rewrite list_elem_of_singleton, singleton_text. split.
        -- by intros [= -> ->].
        -- by intros [-> [= ->]].
      * split; [by intros ?%elem_of_nil |].
        intros [->%singleton_text [= ? ?]]. by subst.
  - pose proof (nat_ascii_bounded hi) as Hhi.
    pose proof (nat_ascii_bounded lo) as Hlo.
    destruct s as [|a s'].
    + split; [by intros ?%elem_of_nil |].
      by intros [(k & -> & _)%list_elem_of_fmap ?].
    + destruct (in_range lo hi a) eqn:Hr.
      * apply in_range_spec in Hr. rewrite list_elem_of_singleton. split.
        -- intros [= -> ->]. split; [|done]. apply chr_seq; lia.
        -- intros [(k & -> & Hk)%list_elem_of_fmap [= -> ->]]. done.
      * split; [by intros ?%elem_of_nil |].
        intros [Ht Hs]. pose proof Ht as (k & -> & _)%list_elem_of_fmap.
        injection Hs as -> ->. apply chr_seq in Ht; [|lia].
        assert (in_range lo hi (chr k) = true) as Habs by (apply in_range_spec; lia).
        congruence.
  - destruct s as [|a s'].
    + split; [by intros ?%elem_of_nil |].
      by intros [(k & -> & _)%list_elem_of_fmap ?].
    + destruct (is_Some_dec (digit_of a)) as [Hd|Hd].
      * apply digit_of_spec in Hd. rewrite list_elem_of_singleton. split.
        -- intros [= -> ->]. split; [|done]. apply chr_seq; lia.
        -- intros [(k & -> & Hk)%list_elem_of_fmap [= -> ->]]. done.
      * split; [by intros ?%elem_of_nil |].
        intros [Ht Hs]. pose proof Ht as (k & -> & _)%list_elem_of_fmap.
        injection Hs as -> ->. apply chr_seq in Ht; [|lia].
        destruct Hd. apply digit_of_spec. lia.
  - rewrite !list_elem_of_bind. split.
    + intros ([t1 s1] & Hin & H1). apply IH1 in H1 as [Ht1 ->].
      apply list_elem_of_bind in Hin as ([t2 s2] & Hin & H2).
      apply IH2 in H2 as [Ht2 ->].
      apply list_elem_of_singleton in Hin as [= -> ->].
      split; [|by rewrite string_app_assoc].
      exists t1. split; [|done]. apply list_elem_of_bind. exists t2.
      split; [|done]. by apply list_elem_of_singleton.
    + intros [(t1 & Hin & Ht1) ->].
      apply list_elem_of_bind in Hin as (t2 & Hin & Ht2).
      apply list_elem_of_singleton in Hin as ->.
      exists (t1, t2 +:+ rest). split; [|by apply IH1; rewrite string_app_assoc].
      apply list_elem_of_bind. exists (t2, rest). split; [|by apply IH2].
      by apply list_elem_of_singleton.
  - rewrite !elem_of_app, IH1, IH2. tauto.
Qed.

(** Every text of the year group is the four digits of its value. *)
Lemma year_texts_check :
  forallb (λ ys, match int_of_str ys with
                 | Ok y => (0 <=? y) && (y <=? 9999) && bool_decide (four_digits y = ys)
                 | Raise _ => false
                 end) (texts re_Y) = true.
Proof. vm_compute. reflexivity. Qed.

(** Every text of the month group is a way of writing its value, which is
    a month. *)
Lemma month_texts_check :
  forallb (λ ms, match int_of_str ms with
                 | Ok m => (1 <=? m) && (m <=? 12) && bool_decide (ms ∈ month_texts m)
                 | Raise _ => false
                 end) (texts re_m) = true.
Proof. vm_compute. reflexivity. Qed.

Lemma day_texts_check :
  forallb (λ ds, match int_of_str ds with
                 | Ok d => (1 <=? d) && (d <=? 31) && bool_decide (ds ∈ day_texts d)
                 | Raise _ => false
                 end) (texts re_d) = true.
Proof. vm_compute. reflexivity. Qed.

(** Conversely, after the year, each way of writing a month and a day is
    matched first and in full, and [int] reads the values back. *)
Lemma month_day_check :
  forallb (λ m, forallb (λ d,
    forallb (λ mt, forallb (λ dt,
      bool_decide (head (month_day ("-" +:+ mt +:+ "-" +:+ dt)) = Some (mt, dt, EmptyString))
      && match int_of_str mt with Ok m' => m' =? m | Raise _ => false end
      && match int_of_str dt with Ok d' => d' =? d | Raise _ => false end)
      (day_texts d)) (month_texts m)) (seqZ 1 31)) (seqZ 1 12) = true.
Proof. vm_compute. reflexivity. Qed.

Lemma four_digits_check :
  forallb (λ y, match int_of_str (four_digits y) with
                | Ok y' => y' =? y
                | Raise _ => false
                end) (seqZ 0 10000) = true.
Proof. vm_compute. reflexivity. Qed.

Lemma forallb_elem_of {A} (f : A → bool) (l : list A) x :
  forallb f l = true → x ∈ l → f x = true.
Proof.
  intros H Hx. apply list_elem_of_In in Hx.
  by apply (proj1 (forallb_forall f l) H).
Qed.

Lemma year_text ys :
  ys ∈ texts re_Y →
  ∃ y, int_of_str ys = Ok y ∧ 0 ≤ y ≤ 9999 ∧ four_digits y = ys.
Proof.
  intros H. pose proof (forallb_elem_of _ _ _ year_texts_check H) as Hc.
  cbv beta in Hc. destruct (int_of_str ys) as [y|]; [|done].
  apply andb_true_iff in Hc as [[?%Z.leb_le ?%Z.leb_le]%andb_true_iff ?%bool_decide_eq_true].
  eauto.
Qed.

Lemma month_text ms :
  ms ∈ texts re_m →
  ∃ m, int_of_str ms = Ok m ∧ 1 ≤ m ≤ 12 ∧ ms ∈ month_texts m.
Proof.
  intros H. pose proof (forallb_elem_of _ _ _ month_texts_check H) as Hc.
  cbv beta in Hc. destruct (int_of_str ms) as [m|]; [|done].
  apply andb_true_iff in Hc as [[?%Z.leb_le ?%Z.leb_le]%andb_true_iff ?%bool_decide_eq_true].
  eauto.
Qed.

Lemma day_text ds :
  ds ∈ texts re_d →
  ∃ d, int_of_str ds = Ok d ∧ 1 ≤ d ≤ 31 ∧ ds ∈ day_texts d.
Proof.
  intros H. pose proof (forallb_elem_of _ _ _ day_texts_check H) as Hc.
  cbv beta in Hc. destruct (int_of_str ds) as [d|]; [|done].
  apply andb_true_iff in Hc as [[?%Z.leb_le ?%Z.leb_le]%andb_true_iff ?%bool_decide_eq_true].
  eauto.
Qed.

Lemma make_date_Ok y m d dt :
  make_date y m d = Ok dt ↔ dt = mkdate y m d ∧ valid_date (mkdate y m d).
Proof.
  unfold make_date, valid_date. cbn [year month day].
  destruct ((y <? 1) || (9999 <? y)) eqn:Ey.
  { split; [done |]. apply orb_true_iff in Ey as [?%Z.ltb_lt|?%Z.ltb_lt]; lia. }
  apply orb_false_iff in Ey as [?%Z.ltb_ge ?%Z.ltb_ge].
  destruct ((m <? 1) || (12 <? m)) eqn:Em.
  { split; [done |]. apply orb_true_iff in Em as [?%Z.ltb_lt|?%Z.ltb_lt]; lia. }
  apply orb_false_iff in Em as [?%Z.ltb_ge ?%Z.ltb_ge].
  destruct ((d <? 1) || (days_in_month y m <? d)) eqn:Ed.
  { split; [done |]. apply orb_true_iff in Ed as [?%Z.ltb_lt|?%Z.ltb_lt]; lia. }
  apply orb_false_iff in Ed as [?%Z.ltb_ge ?%Z.ltb_ge].
  split; [intros [= <-]; split; [done | lia] | by intros [-> _]].
Qed.

(** What a match of the whole format consists of. *)
Lemma format_match_Some s ys ms ds rest :
  format_match s = Some (ys, ms, ds, rest) →
  ys ∈ texts re_Y ∧ ms ∈ texts re_m ∧ ds ∈ texts re_d
  ∧ s = ys +:+ "-" +:+ ms +:+ "-" +:+ ds +:+ rest.
Proof.
  unfold format_match. intros H%head_Some_elem_of.
  apply list_elem_of_bind in H as ([y s1] & H & Hy).
  apply matches_texts in Hy as [Hy ->].
  apply list_elem_of_bind in H as ([[m d] s5] & H & Hmd).
  apply list_elem_of_singleton in H as [= -> -> -> ->].
  unfold month_day in Hmd.
  apply list_elem_of_bind in Hmd as ([t1 s2] & Hmd & H1).
  apply matches_texts in H1 as [H1 ->].
  apply list_elem_of_bind in Hmd as ([m' s3] & Hmd & Hm).
  apply matches_texts in Hm as [Hm ->].
  apply list_elem_of_bind in Hmd as ([t2 s4] & Hmd & H2).
  apply matches_texts in H2 as [H2 ->].
  apply list_elem_of_bind in Hmd as ([d' s6] & Hmd & Hd).
  apply matches_texts in Hd as [Hd ->].
  apply list_elem_of_singleton in Hmd as [= -> -> ->].
  apply singleton_text in H1 as ->. apply singleton_text in H2 as ->.
  repeat split; try done.
Qed.

(** A text that is converted is a date of the calendar in one of the
    accepted ways of writing. *)
Lemma strptime_Ok_lenient s dt :
  strptime (VStr s) = Ok dt → lenient_Ymd s dt.
Proof.
  unfold strptime.
  destruct (format_match s) as [[[[ys ms] ds] rest]|] eqn:Hm; [|done].
  case_bool_decide as Hrest; [|done]. subst rest.
  apply format_match_Some in Hm as (Hy & Hmo & Hd & ->).
  apply year_text in Hy as (y & -> & Hyr & <-).
  apply month_text in Hmo as (m & -> & Hmr & Hmt).
  apply day_text in Hd as (d & -> & Hdr & Hdt).
  cbn [Py.bind]. intros [-> Hvalid]%make_date_Ok.
  split; [done |]. exists ms, ds. cbn [year month day].
  by rewrite string_app_nil_r.
Qed.

Lemma digit_char_digit a : 0 ≤ a ≤ 9 → digit_of (digit_char a) = Some a.
Proof.
  intros Ha.
  assert (a = 0 ∨ a = 1 ∨ a = 2 ∨ a = 3 ∨ a = 4 ∨ a = 5 ∨ a = 6 ∨ a = 7 ∨ a = 8 ∨ a = 9)
    as Hcases by lia.
  repeat (destruct Hcases as [->|Hcases]; [reflexivity |]). by subst.
Qed.

Lemma bind_one {A B} (f : A → list B) (x : A) : [x] ≫= f = f x.
Proof. cbn. apply app_nil_r. Qed.

Lemma matches_Digit c rest :
  is_Some (digit_of c) → matches Digit (String c rest) = [(String c EmptyString, rest)].
Proof. intros H. cbn [matches]. by destruct (is_Some_dec (digit_of c)). Qed.

Lemma matches_Seq_Digit r c rest :
  is_Some (digit_of c) →
  matches (Seq Digit r) (String c rest) =
  matches r rest ≫= λ '(t2, s2), [(String c t2, s2)].
Proof.
  intros H. change (matches (Seq Digit r) (String c rest)) with
    (matches Digit (String c rest) ≫= λ '(t1, s1),
       matches r s1 ≫= λ '(t2, s2), [(t1 +:+ t2, s2)]).
  rewrite matches_Digit by done. by rewrite bind_one.
Qed.

Lemma matches_re_Y_digits c1 c2 c3 c4 rest :
  is_Some (digit_of c1) → is_Some (digit_of c2) →
  is_Some (digit_of c3) → is_Some (digit_of c4) →
  matches re_Y (String c1 (String c2 (String c3 (String c4 rest)))) =
  [(String c1 (String c2 (String c3 (String c4 EmptyString))), rest)].
Proof.
  intros H1 H2 H3 H4. unfold re_Y.
  rewrite !matches_Seq_Digit, matches_Digit by done.
  by rewrite !bind_one.
Qed.

Lemma matches_re_Y_four_digits y rest :
  0 ≤ y ≤ 9999 → matches re_Y (four_digits y +:+ rest) = [(four_digits y, rest)].
Proof.
  intros Hy. unfold four_digits, two_digits, one_digit.
  rewrite !string_app_cons.
  apply matches_re_Y_digits; rewrite digit_char_digit; eauto;
    Z.to_euclidean_division_equations; lia.
Qed.

Lemma int_four_digits y : 0 ≤ y ≤ 9999 → int_of_str (four_digits y) = Ok y.
Proof.
  intros Hy.
  assert (y ∈ seqZ 0 10000) as Hin by (apply elem_of_seqZ; lia).
  pose proof (forallb_elem_of _ _ _ four_digits_check Hin) as Hc. cbv beta in Hc.
  destruct (int_of_str (four_digits y)) as [y'|]; [|done].
  by apply Z.eqb_eq in Hc as ->.
Qed.

Lemma month_day_texts m d mt dt :
  1 ≤ m ≤ 12 → 1 ≤ d ≤ 31 → mt ∈ month_texts m → dt ∈ day_texts d →
  head (month_day ("-" +:+ mt +:+ "-" +:+ dt)) = Some (mt, dt, EmptyString)
  ∧ int_of_str mt = Ok m ∧ int_of_str dt = Ok d.
Proof.
  intros Hm Hd Hmt Hdt.
  assert (m ∈ seqZ 1 12) as Hmin by (apply elem_of_seqZ; lia).
  assert (d ∈ seqZ 1 31) as Hdin by (apply elem_of_seqZ; lia).
  pose proof (forallb_elem_of _ _ _ month_day_check Hmin) as Hc. cbv beta in Hc.
  pose proof (forallb_elem_of _ _ _ Hc Hdin) as Hc2. cbv beta in Hc2.
  pose proof (forallb_elem_of _ _ _ Hc2 Hmt) as Hc3. cbv beta in Hc3.
  pose proof (forallb_elem_of _ _ _ Hc3 Hdt) as Hc4. cbv beta in Hc4.
  apply andb_true_iff in Hc4 as [[Hhead%bool_decide_eq_true Hmi]%andb_true_iff Hdi].
  split; [done |].
  destruct (int_of_str mt) as [m'|]; [|done].
  destruct (int_of_str dt) as [d'|]; [|done].
  by apply Z.eqb_eq in Hmi as ->; apply Z.eqb_eq in Hdi as ->.
Qed.

Lemma days_in_month_le y m : days_in_month y m ≤ 31.
Proof. unfold days_in_month. repeat case_match; lia. Qed.

(** A date of the calendar written in one of the accepted ways is
    converted to that date. *)
Lemma strptime_lenient_Ok s dt :
  lenient_Ymd s dt → strptime (VStr s) = Ok dt.
Proof.
  destruct dt as [y m d]. intros [Hvalid (mt & dt & Hmt & Hdt & ->)].
  pose proof Hvalid as (Hy & Hm & Hd). cbn [year month day] in *.
  pose proof (days_in_month_le y m).
  destruct (month_day_texts m d mt dt) as (Hhead & Hmi & Hdi); [lia | lia | done | done |].
  assert (format_match (four_digits y +:+ "-" +:+ mt +:+ "-" +:+ dt) =
          Some (four_digits y, mt, dt, EmptyString)) as Hmatch.
  { unfold format_match. rewrite matches_re_Y_four_digits by lia.
    rewrite bind_one.
    destruct (month_day ("-" +:+ mt +:+ "-" +:+ dt)) as [|x l]; [done |].
    by injection Hhead as ->. }
  unfold strptime. rewrite Hmatch, bool_decide_eq_true_2 by done.
  rewrite int_four_digits, Hmi, Hdi by lia. cbn [Py.bind].
  by apply make_date_Ok.
Qed.

Lemma int_of_str_Raise s e : int_of_str s = Raise e → ∃ msg, e = ValueError msg.
Proof.
  unfold int_of_str. cbv zeta. intros H.
  repeat case_match; simplify_eq; eauto.
Qed.

Lemma make_date_Raise y m d e : make_date y m d = Raise e → ∃ msg, e = ValueError msg.
Proof.
  unfold make_date. intros H. repeat case_match; simplify_eq; eauto.
Qed.

(** For a text, the conversion raises nothing but [ValueError]. *)
Lemma strptime_str_Raise s e :
  strptime (VStr s) = Raise e → ∃ msg, e = ValueError msg.
Proof.
  unfold strptime.
  destruct (format_match s) as [[[[ys ms] ds] rest]|]; [|intros [= <-]; eauto].
  case_bool_decide; [|intros [= <-]; eauto].
  destruct (int_of_str ys) as [y|e1] eqn:E1;
    [|intros [= <-]; by eapply int_of_str_Raise].
  destruct (int_of_str ms) as [m|e2] eqn:E2;
    [|intros [= <-]; by eapply int_of_str_Raise].
  destruct (int_of_str ds) as [d|e3] eqn:E3;
    [|intros [= <-]; by eapply int_of_str_Raise].
  cbn [Py.bind]. apply make_date_Raise.
Qed.

Lemma iso_text_lenient d : valid_date d → lenient_Ymd (iso_text d) d.
Proof.
  intros Hvalid. split; [done |].
  exists (two_digits (month d)), (two_digits (day d)).
  split; [by left |]. split; [by left | done].
Qed.

Lemma iso_text_length d : String.length (iso_text d) = 10%nat.
Proof. reflexivity. Qed.

Example strptime_iso :
  strptime (VStr "2024-02-13") = Ok (mkdate 2024 2 13).
Proof. vm_compute. reflexivity. Qed.

(** C8, as the code has it, for ASCII text. The conversion succeeds
    exactly on the texts that write a date of the calendar (year 1 to 9999)
    as four digits of the year, a dash, the month, a dash and the day, where
    the month is written with two digits or, below 10, with one, and the day
    with two digits or, below 10, with one digit or a space and one digit;
    it yields that date. So every well-formed YYYY-MM-DD text is converted
    to its date. On every other ASCII text the conversion raises
    [ValueError], which the save reports as the error of converting
    DateDATE. In particular 2024-02-13 is converted and 13/02/2024 is
    refused. Texts with characters outside ASCII are not covered: Python
    also reads the decimal digits of other scripts. *)
Theorem strptime_accepts_exactly_lenient_dates (s : string) :
  is_ascii s →
  (∀ d, strptime (VStr s) = Ok d ↔ lenient_Ymd s d)
  ∧ (∀ d, valid_date d → s = iso_text d → strptime (VStr s) = Ok d)
  ∧ ((∀ d, ¬ lenient_Ymd s d) →
     (∃ msg, strptime (VStr s) = Raise (ValueError msg))
     ∧ ∀ row : Row, row !! "DateDATE" = Some (VStr s) →
         ∃ msg, convert_row row =
                Raise (ValueError ("Error converting DateDATE to date: " +:+ msg)))
  ∧ strptime (VStr "2024-02-13") = Ok (mkdate 2024 2 13)
  ∧ strptime (VStr "13/02/2024") =
      Raise (ValueError "time data '13/02/2024' does not match format '%Y-%m-%d'").
Proof.
  intros _. split; [|split; [|split; [|split]]].
  - intros d. split; [apply strptime_Ok_lenient | apply strptime_lenient_Ok].
  - intros d Hvalid ->. by apply strptime_lenient_Ok, iso_text_lenient.
  - intros Hnone.
    assert (∃ msg, strptime (VStr s) = Raise (ValueError msg)) as [msg Hmsg].
    { destruct (strptime (VStr s)) as [d|e] eqn:E.
      - by destruct (Hnone d); apply strptime_Ok_lenient.
      - destruct (strptime_str_Raise _ _ E) as [msg ->]. eauto. }
    split; [eauto |]. intros row Hrow. exists msg.
    by eapply convert_row_malformed.
  - vm_compute. reflexivity.
  - vm_compute. reflexivity.
Qed.

(** The text of the specification's example that must be refused is ASCII
    and is no way of writing a date, so its conversion raises. *)
Lemma strptime_accepts_exactly_lenient_dates_witness :
  is_ascii "13/02/2024"
  ∧ (∃ msg, strptime (VStr "13/02/2024") = Raise (ValueError msg))
  ∧ ∀ row : Row, row !! "DateDATE" = Some (VStr "13/02/2024") →
      ∃ msg, convert_row row =
             Raise (ValueError ("Error converting DateDATE to date: " +:+ msg)).
Proof.
  assert (is_ascii "13/02/2024") as Hascii.
  { unfold is_ascii. cbn [list_ascii_of_string].
    repeat (constructor; [vm_compute; lia |]). constructor. }
  split; [exact Hascii |].
  destruct (strptime_accepts_exactly_lenient_dates "13/02/2024" Hascii)
    as (Hiff & _ & Hfail & _).
  apply Hfail. intros d Hd. apply Hiff in Hd. vm_compute in Hd. discriminate.
Defined.

(** C8 as stated fails: a text with an unpadded month and day, which is not
    a well-formed YYYY-MM-DD text, is converted, and so is one whose day is
    padded with a space. *)
Lemma unpadded_date_text_is_converted :
  strptime (VStr "2024-2-3") = Ok (mkdate 2024 2 3)
  ∧ strptime (VStr "2024-2- 3") = Ok (mkdate 2024 2 3)
  ∧ ¬ well_formed_Ymd "2024-2-3"
  ∧ ¬ well_formed_Ymd "2024-2- 3".
Proof.
  split; [vm_compute; reflexivity |]. split; [vm_compute; reflexivity |].
  split; intros (d & _ & H); apply (f_equal String.length) in H;
    rewrite iso_text_length in H; vm_compute in H; discriminate.
Qed.

(** * Further properties of the code *)

(** ** Key resolution: which columns are returned *)

Lemma split_no_sep sep (s : string) :
  count_char sep s = 0%nat → split sep s = [s].
Proof.
  induction s as [|a s IH]; [done |]. cbn [count_char split].
  case_bool_decide as Ha; [done |]. intros Hs. by rewrite IH.
Qed.

Lemma split_app_sep sep (s rest : string) :
  count_char sep s = 0%nat →
  split sep (s +:+ String sep rest) = s :: split sep rest.
Proof.
  induction s as [|a s IH].
  - intros _. change (EmptyString +:+ String sep rest) with (String sep rest).
    cbn [split]. by rewrite bool_decide_eq_true_2.
  - cbn [count_char]. case_bool_decide as Ha; [done |]. intros Hs.
    rewrite string_app_cons. cbn [split].
    rewrite bool_decide_eq_false_2 by done. by rewrite IH.
Qed.

(** X1. For a name made of three parts without dots, joined by dots,
    [get_primary_keys] returns the column names of exactly the key-table
    rows whose catalog, schema and table equal the three parts, in the
    order of the key table and with its repetitions; rows that differ in
    any of the three contribute nothing. *)
Theorem primary_keys_of_qualified_name (B : Backend) (catalog schema table : string)
    (rows : list KeyRow) :
  count_char "." catalog = 0%nat → count_char "." schema = 0%nat →
  count_char "." table = 0%nat →
  key_rows B key_table = Ok rows →
  get_primary_keys B (catalog +:+ "." +:+ schema +:+ "." +:+ table) =
    Ok (column_name <$>
          filter (λ r, table_catalog r = catalog ∧ table_schema r = schema
                       ∧ Spark.table_name r = table) rows).
Proof.
  intros Hc Hs Ht Hrows. unfold get_primary_keys.
  change (catalog +:+ "." +:+ schema +:+ "." +:+ table)
    with (catalog +:+ String "." (schema +:+ String "." table)).
  rewrite (split_app_sep "." catalog) by done.
  rewrite (split_app_sep "." schema) by done.
  rewrite (split_no_sep "." table) by done.
  cbn [unpack3 Py.bind]. rewrite Hrows. cbn [Py.bind]. do 2 f_equal.
  rewrite !list_filter_filter. apply list_filter_iff. intros r. tauto.
Qed.

Lemma primary_keys_of_qualified_name_witness :
  get_primary_keys
    (Demo.service Demo.id_name_schema []
       [ {| table_catalog := "cat"; table_schema := "ns"; table_name := "other";
            column_name := "x" |};
         Demo.key_id;
         {| table_catalog := "cat"; table_schema := "ns"; table_name := "t1";
            column_name := "name" |} ])
    ("cat" +:+ "." +:+ "ns" +:+ "." +:+ "t1") =
  Ok (column_name <$>
        filter (λ r, table_catalog r = "cat" ∧ table_schema r = "ns"
                     ∧ Spark.table_name r = "t1")
          [ {| table_catalog := "cat"; table_schema := "ns"; table_name := "other";
               column_name := "x" |};
            Demo.key_id;
            {| table_catalog := "cat"; table_schema := "ns"; table_name := "t1";
               column_name := "name" |} ]).
Proof.
  apply primary_keys_of_qualified_name; reflexivity.
Defined.

(** ** Column types *)

Lemma type_mapping_values (n v : string) :
  type_mapping !! n = Some v →
  v ∈ ["numericColumn"; "textColumn"; "booleanColumn"; "dateColumn"].
Proof.
  unfold type_mapping, dict_of. cbn [foldl fst snd]. intros H.
  repeat (rewrite lookup_insert in H; case_decide;
          [injection H as <-; repeat first [by left | right] |]).
  by rewrite lookup_empty in H.
Qed.

Lemma type_mapping_unknown (n : string) :
  n ∉ ["IntegerType"; "LongType"; "FloatType"; "DoubleType"; "DecimalType";
       "StringType"; "BooleanType"; "DateType"; "TimestampType"] →
  type_mapping !! n = None.
Proof.
  intros Hn. unfold type_mapping, dict_of. cbn [foldl fst snd].
  repeat (rewrite lookup_insert_ne;
          [| intros <-; apply Hn; repeat first [by left | right]]).
  apply lookup_empty.
Qed.

(** X2. [get_column_types] yields one entry per field of the schema, in
    the order of the schema and under the field's name; every type it
    assigns is one of the four grid kinds; a field whose type class is none
    of the nine listed classes is a text column. *)
Theorem column_types_follow_schema (table_schema : StructType) :
  column <$> get_column_types table_schema = name <$> table_schema
  ∧ Forall (λ ct, type ct ∈ ["numericColumn"; "textColumn"; "booleanColumn";
                             "dateColumn"]) (get_column_types table_schema)
  ∧ ∀ (i : nat) f,
      table_schema !! i = Some f →
      class_name_of (dataType f) ∉
        ["IntegerType"; "LongType"; "FloatType"; "DoubleType"; "DecimalType";
         "StringType"; "BooleanType"; "DateType"; "TimestampType"] →
      type <$> get_column_types table_schema !! i = Some "textColumn".
Proof.
  unfold get_column_types. split; [|split].
  - rewrite <- list_fmap_compose. by apply list_fmap_ext.
  - apply Forall_fmap, Forall_true. intros f. unfold compose. cbn [type].
    destruct (type_mapping !! class_name_of (dataType f)) as [v|] eqn:E.
    + by apply type_mapping_values in E.
    + cbn. right. by left.
  - intros i f Hi Hclass. rewrite list_lookup_fmap, Hi. cbn [fmap option_fmap option_map type].
    by rewrite type_mapping_unknown.
Qed.

(** ** Loading *)

Lemma load_guard (n_clicks n_submit : Z) (table_name : string) :
  0 < n_clicks ∨ 0 < n_submit → table_name ≠ EmptyString →
  ((0 <? n_clicks) || (0 <? n_submit)) && negb (bool_decide (table_name = EmptyString))
  = true.
Proof.
  intros Hc Hn. rewrite bool_decide_eq_false_2 by done.
  rewrite andb_true_r. apply orb_true_iff.
  destruct Hc; [left | right]; by apply Z.ltb_lt.
Qed.

Lemma generate_column_defs_fields (B : Backend) data table_schema table_name defs :
  generate_column_defs B data table_schema table_name = Ok defs →
  field <$> defs = name <$> table_schema
  ∧ headerName <$> defs = name <$> table_schema
  ∧ col_type <$> defs = type <$> get_column_types table_schema
  ∧ Forall (λ d, col_filter d = true) defs.
Proof.
  unfold generate_column_defs.
  destruct (get_primary_keys B table_name) as [keys|e]; [|done].
  cbn [Py.bind]. intros [= <-]. unfold get_column_types.
  repeat split.
  - rewrite <- !list_fmap_compose. by apply list_fmap_ext.
  - rewrite <- !list_fmap_compose. by apply list_fmap_ext.
  - rewrite <- !list_fmap_compose. by apply list_fmap_ext.
  - apply Forall_fmap, Forall_true. by intros col.
Qed.

(** X3. A load that is triggered (a click or Enter, and a non-empty name)
    on a table that is read, has at least one row and whose keys are
    resolved returns the rows of the table as they were read, the status of
    success, and one column definition per field of the schema, in schema
    order, whose header and field are the field's name, whose type is the
    one [get_column_types] assigns and whose filter is on. *)
Theorem load_shows_table (B : Backend) (n_clicks n_submit : Z) (table_name : string)
    (tbl : Table) (keys : list string) :
  0 < n_clicks ∨ 0 < n_submit → table_name ≠ EmptyString →
  table B table_name = Ok tbl → collect tbl ≠ [] →
  get_primary_keys B table_name = Ok keys →
  ∃ defs,
    load_data_callback B n_clicks n_submit table_name =
      (collect tbl, defs, "Data successfully loaded")
    ∧ field <$> defs = name <$> schema tbl
    ∧ headerName <$> defs = name <$> schema tbl
    ∧ col_type <$> defs = type <$> get_column_types (schema tbl)
    ∧ Forall (λ d, col_filter d = true) defs.
Proof.
  intros Hc Hn Htbl Hrows Hkeys. unfold load_data_callback, load_data.
  rewrite load_guard, Htbl by done. rewrite bool_decide_eq_false_2 by done.
  destruct (generate_column_defs B (collect tbl) (schema tbl) table_name) as [defs|e] eqn:E.
  - exists defs. split; [done |]. by eapply generate_column_defs_fields.
  - unfold generate_column_defs in E. by rewrite Hkeys in E.
Qed.

Lemma load_shows_table_witness :
  ∃ defs,
    load_data_callback (Demo.service Demo.id_name_schema Demo.grid [Demo.key_id])
      1 0 "cat.ns.t1" =
      (collect {| schema := Demo.id_name_schema; collect := Demo.grid |}, defs,
       "Data successfully loaded")
    ∧ field <$> defs = name <$> schema {| schema := Demo.id_name_schema; collect := Demo.grid |}
    ∧ headerName <$> defs
      = name <$> schema {| schema := Demo.id_name_schema; collect := Demo.grid |}
    ∧ col_type <$> defs
      = type <$> get_column_types
                   (schema {| schema := Demo.id_name_schema; collect := Demo.grid |})
    ∧ Forall (λ d, col_filter d = true) defs.
Proof.
  apply (load_shows_table (Demo.service Demo.id_name_schema Demo.grid [Demo.key_id])
           1 0 "cat.ns.t1" {| schema := Demo.id_name_schema; collect := Demo.grid |} ["id"]).
  - left. lia.
  - discriminate.
  - vm_compute. reflexivity.
  - discriminate.
  - vm_compute. reflexivity.
Defined.

(** X4. A load returns all or nothing: either the status of success with
    all rows of a table that was read and is not empty and as many column
    definitions as the schema has fields, or no row, no column definition
    and another status. *)
Theorem load_is_all_or_nothing (B : Backend) (n_clicks n_submit : Z)
    (table_name : string) :
  (∃ tbl defs,
     load_data_callback B n_clicks n_submit table_name =
       (collect tbl, defs, "Data successfully loaded")
     ∧ table B table_name = Ok tbl ∧ collect tbl ≠ []
     ∧ length defs = length (schema tbl))
  ∨ (∃ status,
       load_data_callback B n_clicks n_submit table_name = ([], [], status)
       ∧ status ≠ "Data successfully loaded").
Proof.
  unfold load_data_callback, load_data.
  destruct (((0 <? n_clicks) || (0 <? n_submit))
            && negb (bool_decide (table_name = EmptyString)));
    [|right; eexists; split; [done | discriminate]].
  destruct (table B table_name) as [tbl|e] eqn:Htbl;
    [|right; eexists; split; [done | discriminate]].
  case_bool_decide as Hrows; [right; eexists; split; [done | discriminate] |].
  destruct (generate_column_defs B (collect tbl) (schema tbl) table_name) as [defs|e] eqn:E;
    [|right; eexists; split; [done | discriminate]].
  left. exists tbl, defs. repeat split; try done.
  apply generate_column_defs_fields in E as (Hf & _).
  apply (f_equal length) in Hf. by rewrite !length_fmap in Hf.
Qed.

(** X5. The display does not survive a failure behind it. When the table
    cannot be read, the load returns no rows and the text of that failure,
    wrapped by [load_data]. When the table is read and has rows but key
    resolution raises (a name that is not of three parts, an unreadable key
    table), the rows that were read are dropped as well and the status is
    the text of that exception. *)
Theorem load_fails_as_a_whole (B : Backend) (n_clicks n_submit : Z)
    (table_name : string) :
  0 < n_clicks ∨ 0 < n_submit → table_name ≠ EmptyString →
  (∀ e, table B table_name = Raise e →
        load_data_callback B n_clicks n_submit table_name =
          ([], [], "Error loading data: Failed to load data from table '" +:+
                   table_name +:+ "': " +:+ exn_str e))
  ∧ (∀ tbl e, table B table_name = Ok tbl → collect tbl ≠ [] →
        get_primary_keys B table_name = Raise e →
        load_data_callback B n_clicks n_submit table_name =
          ([], [], "Error loading data: " +:+ exn_str e)).
Proof.
  intros Hc Hn. unfold load_data_callback, load_data. rewrite load_guard by done.
  split.
  - by intros e ->.
  - intros tbl e -> Hrows Hkeys. rewrite bool_decide_eq_false_2 by done.
    unfold generate_column_defs. by rewrite Hkeys.
Qed.

Lemma load_fails_as_a_whole_witness :
  load_data_callback (Demo.service Demo.id_name_schema Demo.grid [Demo.key_id]) 0 1 "nowhere"
    = ([], [], "Error loading data: Failed to load data from table 'nowhere': TABLE_OR_VIEW_NOT_FOUND")
  ∧ load_data_callback
      {| table := λ _, Ok {| schema := Demo.id_name_schema; collect := Demo.grid |};
         key_rows := λ _, Ok [Demo.key_id];
         verify_rows := λ _ _, Ok ();
         forName := λ t, Ok {| delta_name := t |};
         execute := λ _, Ok () |} 0 1 "t1"
    = ([], [], "Error loading data: not enough values to unpack (expected 3, got 1)").
Proof.
  split.
  - destruct (load_fails_as_a_whole
                (Demo.service Demo.id_name_schema Demo.grid [Demo.key_id]) 0 1 "nowhere")
      as [H _]; [right; lia | discriminate |].
    apply (H (SparkError "TABLE_OR_VIEW_NOT_FOUND")). vm_compute. reflexivity.
  - destruct (load_fails_as_a_whole
                {| table := λ _, Ok {| schema := Demo.id_name_schema; collect := Demo.grid |};
                   key_rows := λ _, Ok [Demo.key_id];
                   verify_rows := λ _ _, Ok ();
                   forName := λ t, Ok {| delta_name := t |};
                   execute := λ _, Ok () |} 0 1 "t1")
      as [_ H]; [right; lia | discriminate |].
    apply (H {| schema := Demo.id_name_schema; collect := Demo.grid |}
             (ValueError "not enough values to unpack (expected 3, got 1)")).
    + reflexivity.
    + discriminate.
    + vm_compute. reflexivity.
Defined.

(** X6. A table that is read but has no row is shown as nothing: no row,
    no column definition although the schema is known, and a status that
    speaks of a missing name or click; key resolution is not attempted, so
    the outcome does not depend on the key table. *)
Theorem load_of_empty_table (B : Backend) (n_clicks n_submit : Z) (table_name : string)
    (tbl : Table) :
  0 < n_clicks ∨ 0 < n_submit → table_name ≠ EmptyString →
  table B table_name = Ok tbl → collect tbl = [] →
  load_data_callback B n_clicks n_submit table_name =
    ([], [], "no Table name provided or button clicked")
  ∧ ∀ B', table B' = table B →
          load_data_callback B' n_clicks n_submit table_name =
            load_data_callback B n_clicks n_submit table_name.
Proof.
  intros Hc Hn Htbl Hrows.
  assert (∀ B', table B' = table B →
            load_data_callback B' n_clicks n_submit table_name =
              ([], [], "no Table name provided or button clicked")) as Hall.
  { intros B' HB. unfold load_data_callback, load_data.
    rewrite load_guard, HB, Htbl by done. by rewrite bool_decide_eq_true_2. }
  split; [by apply Hall |]. intros B' HB. by rewrite !Hall.
Qed.

Lemma load_of_empty_table_witness :
  load_data_callback (Demo.service Demo.id_name_schema [] [Demo.key_id]) 1 0 "cat.ns.t1" =
    ([], [], "no Table name provided or button clicked")
  ∧ ∀ B', table B' = table (Demo.service Demo.id_name_schema [] [Demo.key_id]) →
          load_data_callback B' 1 0 "cat.ns.t1" =
            load_data_callback (Demo.service Demo.id_name_schema [] [Demo.key_id])
              1 0 "cat.ns.t1".
Proof.
  apply (load_of_empty_table (Demo.service Demo.id_name_schema [] [Demo.key_id]) 1 0
           "cat.ns.t1" {| schema := Demo.id_name_schema; collect := [] |}).
  - left. lia.
  - discriminate.
  - vm_compute. reflexivity.
  - reflexivity.
Defined.

(** ** Change tracking: failures, order, growth *)

Lemma comprehension_elem_Raise {A B} (f : A → res B) (l : list A) x :
  x ∈ l → (∃ e, f x = Raise e) → ∃ e, comprehension f l = Raise e.
Proof.
  intros Hx [e He]. destruct (comprehension f l) as [ys|e'] eqn:E; [|eauto].
  apply comprehension_Ok in E. apply list_elem_of_lookup in Hx as [k Hk].
  destruct (Forall2_lookup_l _ _ _ _ _ E Hk) as (y & _ & Hy). congruence.
Qed.

Lemma track_changes_cells (cells : list Row) (ids : list Z) :
  track_changes (Some cells) (Some ids) =
  match comprehension (λ entry, int (default VNone (entry !! "rowId"))) cells with
  | Ok new => Ok (ids ++ new)
  | Raise e => Raise e
  end.
Proof.
  unfold track_changes. destruct ids as [|i ids], cells as [|entry cells]; try done.
  all: cbn [comprehension]; by rewrite app_nil_r.
Qed.

(** X7. One entry whose row id [int] does not accept (a missing rowId, a
    text that is no integer) makes [track_changes] raise: no index of the
    event is recorded, not even those of the entries before it. On the page
    the grid then shows the edit while the store of changed rows is as it
    was, so a later save does not send these rows. *)
Theorem bad_row_id_drops_the_event (B : Backend) (changed_cells rows_after : list Row)
    (entry : Row) (s : Session) :
  entry ∈ changed_cells →
  (∃ e, int (default VNone (entry !! "rowId")) = Raise e) →
  (∃ e, track_changes (Some changed_cells) (Some (changed_rows_store s)) = Raise e)
  ∧ changed_rows_store (step B (Edit_cells changed_cells rows_after) s).1
    = changed_rows_store s
  ∧ rowData (step B (Edit_cells changed_cells rows_after) s).1 = rows_after.
Proof.
  intros Hin Hbad.
  destruct (comprehension_elem_Raise
              (λ entry, int (default VNone (entry !! "rowId")))
              changed_cells entry Hin Hbad) as [e He].
  assert (track_changes (Some changed_cells) (Some (changed_rows_store s)) = Raise e)
    as Htrack by (by rewrite track_changes_cells, He).
  split; [eauto |]. cbn [step fst changed_rows_store rowData]. by rewrite Htrack.
Qed.

Lemma bad_row_id_drops_the_event_witness :
  (∃ e, track_changes (Some [ {["rowId" := VStr "0"]}; {["colId" := VStr "name"]} ])
          (Some (changed_rows_store Demo.edited)) = Raise e)
  ∧ changed_rows_store
      (step Demo.keyed
         (Edit_cells [ {["rowId" := VStr "0"]}; {["colId" := VStr "name"]} ] Demo.grid)
         Demo.edited).1
    = changed_rows_store Demo.edited
  ∧ rowData
      (step Demo.keyed
         (Edit_cells [ {["rowId" := VStr "0"]}; {["colId" := VStr "name"]} ] Demo.grid)
         Demo.edited).1 = Demo.grid.
Proof.
  apply (bad_row_id_drops_the_event Demo.keyed
           [ {["rowId" := VStr "0"]}; {["colId" := VStr "name"]} ] Demo.grid
           {["colId" := VStr "name"]} Demo.edited).
  - right. left.
  - eexists. vm_compute. reflexivity.
Defined.

(** X8. Two edit events whose row ids are all accepted can be recorded in
    either order: both orders succeed and record the same indices with the
    same numbers of occurrences, the lists differing at most in order. *)
Theorem edit_events_commute_up_to_order (a b : list Row) (ids : option (list Z))
    (na nb : list Z) :
  comprehension (λ entry, int (default VNone (entry !! "rowId"))) a = Ok na →
  comprehension (λ entry, int (default VNone (entry !! "rowId"))) b = Ok nb →
  ∃ ab ba,
    (let* x := track_changes (Some a) ids in track_changes (Some b) (Some x)) = Ok ab
    ∧ (let* x := track_changes (Some b) ids in track_changes (Some a) (Some x)) = Ok ba
    ∧ ab ≡ₚ ba.
Proof.
  intros Ha Hb.
  assert (∀ c nc, comprehension (λ entry, int (default VNone (entry !! "rowId"))) c = Ok nc →
            track_changes (Some c) ids = Ok (default [] ids ++ nc)) as Hfirst.
  { intros c nc Hc. destruct ids as [l|].
    - by rewrite track_changes_cells, Hc.
    - change (track_changes (Some c) None) with (track_changes (Some c) (Some [])).
      by rewrite track_changes_cells, Hc. }
  exists ((default [] ids ++ na) ++ nb), ((default [] ids ++ nb) ++ na).
  rewrite (Hfirst a na Ha), (Hfirst b nb Hb). cbn [Py.bind].
  rewrite !track_changes_cells, Ha, Hb. repeat split.
  rewrite <- !app_assoc. apply Permutation_app_head, Permutation_app_comm.
Qed.

Lemma edit_events_commute_up_to_order_witness :
  ∃ ab ba,
    (let* x := track_changes (Some [ {["rowId" := VStr "2"]}; {["rowId" := VStr "5"]} ]) None in
     track_changes (Some [ {["rowId" := VStr "5"]}; {["rowId" := VStr "7"]} ]) (Some x))
      = Ok ab
    ∧ (let* x := track_changes (Some [ {["rowId" := VStr "5"]}; {["rowId" := VStr "7"]} ]) None in
       track_changes (Some [ {["rowId" := VStr "2"]}; {["rowId" := VStr "5"]} ]) (Some x))
      = Ok ba
    ∧ ab ≡ₚ ba.
Proof.
  apply (edit_events_commute_up_to_order
           [ {["rowId" := VStr "2"]}; {["rowId" := VStr "5"]} ]
           [ {["rowId" := VStr "5"]}; {["rowId" := VStr "7"]} ] None [2; 5] [5; 7]);
    vm_compute; reflexivity.
Defined.

Lemma track_changes_prefix (cells : list Row) (ids out : list Z) :
  track_changes (Some cells) (Some ids) = Ok out → ids `prefix_of` out.
Proof.
  rewrite track_changes_cells.
  destruct (comprehension _ cells) as [new|e]; [|done].
  intros [= <-]. by apply prefix_app_r.
Qed.

Lemma step_store_prefix (B : Backend) (ev : event) (s : Session) :
  changed_rows_store s `prefix_of` changed_rows_store (step B ev s).1.
Proof.
  destruct ev as [text| | |cells rows|].
  - done.
  - by rewrite store_written_by_edits_only.
  - by rewrite store_written_by_edits_only.
  - cbn [step fst changed_rows_store].
    destruct (track_changes _ _) as [out|e] eqn:E; [|done].
    by eapply track_changes_prefix.
  - by rewrite store_written_by_edits_only.
Qed.

(** X9. On the page the store of changed rows only grows: whatever the
    user does (typing a name, loading, editing, saving, in any order and
    against any backend), the indices recorded before are still recorded
    afterwards, at the head of the list and in the same order. Neither a
    successful save nor a load of another table clears it. *)
Theorem store_only_grows (trace : list (Backend * event)) (s : Session) :
  changed_rows_store s `prefix_of` changed_rows_store (run trace s).1.
Proof.
  revert s. induction trace as [|[B ev] trace IH]; intros s; [done |].
  cbn [run]. pose proof (step_store_prefix B ev s) as Hstep.
  destruct (step B ev s) as [s1 log1]. specialize (IH s1).
  destruct (run trace s1) as [s2 log2]. cbn [fst] in *.
  by etrans.
Qed.

(** ** Saving: outcomes, the rows sent, dates that are no text *)

Lemma save_to_databricks_cases (B : Backend) ids table_name grid :
  (∃ m, save_to_databricks B ids table_name grid = (Ok (), [m]) ∧ execute B m = Ok ())
  ∨ (∃ m e, save_to_databricks B ids table_name grid = (Raise (save_failure table_name e), [m])
            ∧ execute B m = Raise e)
  ∨ (∃ e, save_to_databricks B ids table_name grid = (Raise (save_failure table_name e), [])).
Proof.
  unfold save_to_databricks.
  match goal with |- context [match ?p with Ok _ => _ | Raise _ => _ end] =>
    destruct p as [m|e] end; [|right; right; eauto].
  destruct (execute B m) as [[]|e] eqn:E; [left | right; left]; eauto.
Qed.

(** X10. [save_to_databricks] executes at most one merge. It returns
    normally only when that merge was executed without error. Anything that
    fails on the way, the execution of the merge included, is raised as one
    exception whose text names the table and carries the text of the cause;
    and when a merge is on record next to a failure, the cause is the
    failure of its execution. *)
Theorem save_to_databricks_outcome (B : Backend) (ids : list Z) (table_name : string)
    (grid : list Row) :
  (length (save_to_databricks B ids table_name grid).2 ≤ 1)%nat
  ∧ ((save_to_databricks B ids table_name grid).1 = Ok () →
     ∃ m, (save_to_databricks B ids table_name grid).2 = [m] ∧ execute B m = Ok ())
  ∧ (∀ e, (save_to_databricks B ids table_name grid).1 = Raise e →
     ∃ cause, e = save_failure table_name cause
              ∧ ∀ m, (save_to_databricks B ids table_name grid).2 = [m] →
                     execute B m = Raise cause).
Proof.
  destruct (save_to_databricks_cases B ids table_name grid)
    as [(m & -> & Hm)|[(m & e & -> & Hm)|(e & ->)]]; cbn [fst snd].
  - split; [simpl; lia |]. split; [eauto | done].
  - split; [simpl; lia |]. split; [done |].
    intros e' [= <-]. exists e. split; [done |]. by intros m' [= <-].
  - split; [simpl; lia |]. split; [done |].
    intros e' [= <-]. exists e. split; [done |]. by intros m' [=].
Qed.

(** X11. The success text of the save callback means that a merge was
    executed: [save_data] returns it exactly when one merge reached the
    backend and its execution did not fail. *)
Theorem success_text_iff_merge_executed (B : Backend) (n : Z) (ids : list Z)
    (table_name : string) (grid : list Row) :
  (save_data B n ids table_name grid).1.1 = "Data was successfully saved!"
  ↔ ∃ m, (save_data B n ids table_name grid).2 = [m] ∧ execute B m = Ok ().
Proof.
  unfold save_data. destruct (0 <? n).
  - destruct (convert_dates grid) as [[[]|e] grid'].
    + destruct (save_to_databricks_cases B ids table_name grid')
        as [(m & -> & Hm)|[(m & e & -> & Hm)|(e & ->)]]; cbn [fst snd].
      * split; [eauto | done].
      * split; [discriminate |]. intros (m' & [= <-] & Hm'). congruence.
      * split; [discriminate |]. by intros (m' & [=] & _).
    + cbn [fst snd]. split; [discriminate |]. by intros (m' & [=] & _).
  - cbn [fst snd]. split; [discriminate |]. by intros (m' & [=] & _).
Qed.

Lemma getitem_nonneg_inv {A} (l : list A) i x :
  0 ≤ i → getitem l i = Ok x → l !! Z.to_nat i = Some x.
Proof.
  intros Hi. unfold getitem. cbv zeta.
  assert ((i <? 0) = false) as E by (apply Z.ltb_ge; lia). rewrite !E.
  case_match; [done |]. case_match; [|done]. by intros [= <-].
Qed.

(** X12. With the keys resolved and every recorded position within the
    grid, the frame of a merge holds one row per recorded position, in the
    order in which the positions were recorded, and the row at each place
    is the grid's row at that position: rows at positions that were not
    recorded are not sent. *)
Theorem merge_source_is_the_recorded_rows (B : Backend) (ids : list Z)
    (table_name : string) (grid : list Row) (keys : list string) :
  get_primary_keys B table_name = Ok keys → keys ≠ [] →
  Forall (λ i, 0 ≤ i < Z.of_nat (length grid)) ids →
  Forall (λ m,
            length (df_data (alias_of (merge_source m))) = length ids
            ∧ ∀ (k : nat) i, ids !! k = Some i →
                df_data (alias_of (merge_source m)) !! k = grid !! Z.to_nat i)
    (save_to_databricks B ids table_name grid).2.
Proof.
  intros Hk Hne Hids. rewrite (save_to_databricks_with_keys _ _ _ _ _ Hk Hne).
  destruct (comprehension (getitem grid) ids) as [rows|e] eqn:Hrows; [|constructor].
  destruct (table B table_name) as [tbl|e]; [|constructor].
  destruct (verify_rows B rows (schema tbl)) as [[]|e]; [|constructor].
  destruct (forName B table_name) as [dt|e]; [|constructor].
  cbv zeta. cbn [snd]. apply Forall_singleton.
  cbn [merge_builder whenNotMatchedInsertAll whenMatchedUpdate merge merge_source
       alias_of df_data].
  split; [by eapply comprehension_length |].
  intros k i Hki. apply comprehension_Ok in Hrows.
  destruct (Forall2_lookup_l _ _ _ _ _ Hrows Hki) as (row & Hrow & Hget).
  rewrite Hrow. symmetry. apply getitem_nonneg_inv; [|done].
  rewrite Forall_forall in Hids. apply Hids. by eapply list_elem_of_lookup_2.
Qed.

Lemma merge_source_is_the_recorded_rows_witness :
  Forall (λ m,
            length (df_data (alias_of (merge_source m))) = length [1]
            ∧ ∀ (k : nat) i, [1] !! k = Some i →
                df_data (alias_of (merge_source m)) !! k = Demo.grid !! Z.to_nat i)
    (save_to_databricks Demo.keyed [1] "cat.ns.t1" Demo.grid).2
  ∧ length (save_to_databricks Demo.keyed [1] "cat.ns.t1" Demo.grid).2 = 1%nat.
Proof.
  split; [|vm_compute; reflexivity].
  apply (merge_source_is_the_recorded_rows Demo.keyed [1] "cat.ns.t1" Demo.grid ["id"]).
  - vm_compute. reflexivity.
  - discriminate.
  - apply Forall_singleton. vm_compute. split; [discriminate | reflexivity].
Defined.




(** X14. A save with no recorded position is not a no-op. Once the date
    pass has gone over the grid and the keys, the schema, the frame and the
    Delta table are obtained, a merge with an empty source is executed, and
    its outcome decides the status like that of any other save. *)
Theorem save_with_nothing_recorded_still_merges (B : Backend) (n : Z)
    (table_name : string) (grid grid' : list Row) (keys : list string)
    (tbl : Table) (target_df : DeltaTable) :
  0 < n → convert_dates grid = (Ok (), grid') →
  get_primary_keys B table_name = Ok keys → keys ≠ [] →
  table B table_name = Ok tbl → verify_rows B [] (schema tbl) = Ok () →
  forName B table_name = Ok target_df →
  ∃ m, (save_data B n [] table_name grid).2 = [m]
       ∧ df_data (alias_of (merge_source m)) = []
       ∧ ((save_data B n [] table_name grid).1.1 = "Data was successfully saved!"
          ↔ execute B m = Ok ()).
Proof.
  intros Hn Hpass Hk Hne Htbl Hver Hdt.
  destruct (save_data_pass_completes B n [] table_name grid grid' Hn Hpass) as [Hst Hlog].
  rewrite Hst, Hlog. rewrite (save_to_databricks_with_keys _ _ _ _ _ Hk Hne).
  cbn [comprehension]. rewrite Htbl, Hver, Hdt. cbv zeta. cbn [fst snd].
  eexists. split; [reflexivity |]. split; [reflexivity |].
  match goal with |- context [execute B ?m] => destruct (execute B m) as [[]|e] end;
    split; try done; discriminate.
Qed.

Lemma save_with_nothing_recorded_still_merges_witness :
  ∃ m, (save_data Demo.keyed 1 [] "cat.ns.t1" Demo.grid).2 = [m]
       ∧ df_data (alias_of (merge_source m)) = []
       ∧ ((save_data Demo.keyed 1 [] "cat.ns.t1" Demo.grid).1.1
            = "Data was successfully saved!"
          ↔ execute Demo.keyed m = Ok ()).
Proof.
  apply (save_with_nothing_recorded_still_merges Demo.keyed 1 "cat.ns.t1"
           Demo.grid Demo.grid ["id"]
           {| schema := Demo.id_name_schema; collect := [] |}
           {| delta_name := "cat.ns.t1" |}).
  - lia.
  - vm_compute. reflexivity.
  - vm_compute. reflexivity.
  - discriminate.
  - vm_compute. reflexivity.
  - reflexivity.
  - reflexivity.
Defined.

(** ** The page: the branch of [save_data] that is never taken *)

Lemma save_data_status_after_click (B : Backend) n ids table_name grid :
  0 < n → (save_data B n ids table_name grid).1.1 ≠ "No Changes to be saved.".
Proof.
  intros Hn. unfold save_data.
  assert ((0 <? n) = true) as -> by (apply Z.ltb_lt; lia).
  destruct (convert_dates grid) as [[[]|e] grid']; [|discriminate].
  destruct (save_to_databricks _ _ _ _) as [[[]|e] log]; discriminate.
Qed.

Lemma step_keeps_clicks_and_status (B : Backend) (ev : event) (s : Session) :
  0 ≤ save_clicks s ∧ loading_output_2 s ≠ "No Changes to be saved." →
  0 ≤ save_clicks (step B ev s).1
  ∧ loading_output_2 (step B ev s).1 ≠ "No Changes to be saved.".
Proof.
  intros [Hc Hs]. destruct ev as [text| | |cells rows|]; cbn [step fst].
  - done.
  - unfold run_load. by destruct (load_data_callback _ _ _ _) as [[? ?] ?].
  - unfold run_load. by destruct (load_data_callback _ _ _ _) as [[? ?] ?].
  - done.
  - pose proof (save_data_status_after_click B (save_clicks s + 1)
                  (changed_rows_store s) (table_name_input s) (rowData s)) as Hst.
    destruct (save_data _ _ _ _ _) as [[status rows] log].
    cbn [fst snd save_clicks loading_output_2] in *.
    split; [lia | apply Hst; lia].
Qed.

(** X15. On the page as the layout declares it (click counts at zero),
    the answer of [save_data] for a click count that is not positive is
    never shown: whatever the user does, the status under the Save button
    is never the text No Changes to be saved, and in particular not when
    Save is clicked with nothing recorded. *)
Theorem no_changes_text_is_never_shown (trace : list (Backend * event)) :
  loading_output_2 (run trace layout).1 ≠ "No Changes to be saved.".
Proof.
  assert (∀ s, 0 ≤ save_clicks s ∧ loading_output_2 s ≠ "No Changes to be saved." →
               0 ≤ save_clicks (run trace s).1
               ∧ loading_output_2 (run trace s).1 ≠ "No Changes to be saved.") as Hinv.
  { induction trace as [|[B ev] trace IH]; intros s Hs; [done |].
    cbn [run]. pose proof (step_keeps_clicks_and_status B ev s Hs) as Hstep.
    destruct (step B ev s) as [s1 log1]. specialize (IH s1 Hstep).
    by destruct (run trace s1) as [s2 log2]. }
  apply Hinv. split; [done | discriminate].
Qed.
